(** * Flagship: the targeting evaluator

    A shallow embedding of the two copies of the targeting engine that the
    repository carries,

      - [DashboardLib]: src/apps/dashboard/lib/targeting.ts
      - [Part005]:      src/unnamed/part_005

    together with the properties of flag evaluation: the rollout hash, the
    rollout-membership test, condition matching, rule cascading and the
    default-rule fallback.

    JavaScript data is modelled as follows.
      - A string is the list of its UTF-16 code units ([JsString]).
      - A number is modelled by its value: a rational, an infinity or NaN
        ([number]); [+0] and [-0] are the one rational zero, which is how
        [===], [<] and [<=] see them.  The evaluator only compares numbers,
        and comparison of doubles is exact, so nothing is rounded here.
      - The 32-bit integer arithmetic of [<<] and [&] is written out on [Z].
      - [Math.random()] is an explicit source of draws threaded through the
        evaluation by a small state monad ([Rand]). *)

From Stdlib Require Import ZArith QArith Lia List Bool String Ascii.
From stdpp Require Import base gmap list.

Local Open Scope Z_scope.

(** ** Strings *)

(** A JavaScript string: its UTF-16 code units, as [charCodeAt] returns them. *)
Definition JsString := list Z.

(** A code unit of a well-formed string is a 16-bit value. *)
Definition code_unit (c : Z) : Prop := 0 <= c < 65536.

(** An ASCII literal as a JavaScript string. *)
Fixpoint js (s : string) : JsString :=
  match s with
  | EmptyString => []
  | String a rest => Z.of_nat (nat_of_ascii a) :: js rest
  end.

Fixpoint str_eqb (s t : JsString) : bool :=
  match s, t with
  | [], [] => true
  | a :: s', b :: t' => (a =? b) && str_eqb s' t'
  | _, _ => false
  end.

Fixpoint starts_with (prefix s : JsString) : bool :=
  match prefix, s with
  | [], _ => true
  | a :: prefix', b :: s' => (a =? b) && starts_with prefix' s'
  | _ :: _, [] => false
  end.

(** [String.prototype.includes]: [search] occurs somewhere in [s]. *)
Fixpoint str_includes (s search : JsString) : bool :=
  starts_with search s
  || match s with
     | [] => false
     | _ :: s' => str_includes s' search
     end.

(** [String.prototype.split] with a one-code-unit separator; the empty
    string splits into one empty piece. *)
Fixpoint str_split (sep : Z) (s : JsString) : list JsString :=
  match s with
  | [] => [[]]
  | c :: s' =>
      if c =? sep then [] :: str_split sep s'
      else match str_split sep s' with
           | piece :: pieces => (c :: piece) :: pieces
           | [] => [[c]]
           end
  end.

(** White space and line terminators, the code units [trim] strips. *)
Definition is_white_space (c : Z) : bool :=
  (9 <=? c) && (c <=? 13)
  || (c =? 32) || (c =? 160) || (c =? 5760)
  || (8192 <=? c) && (c <=? 8202)
  || (c =? 8232) || (c =? 8233) || (c =? 8239) || (c =? 8287)
  || (c =? 12288) || (c =? 65279).

Fixpoint trim_start (s : JsString) : JsString :=
  match s with
  | c :: s' => if is_white_space c then trim_start s' else s
  | [] => []
  end.

(** [String.prototype.trim]. *)
Definition str_trim (s : JsString) : JsString :=
  rev (trim_start (rev (trim_start s))).

(** [Array.prototype.join] with separator [sep]. *)
Fixpoint str_join (sep : JsString) (pieces : list JsString) : JsString :=
  match pieces with
  | [] => []
  | [piece] => piece
  | piece :: rest => piece ++ sep ++ str_join sep rest
  end.

(** ** 32-bit integers *)

(** [ToInt32]: the value modulo 2^32, read as a signed 32-bit integer. *)
Definition ToInt32 (z : Z) : Z := (z + 2 ^ 31) mod 2 ^ 32 - 2 ^ 31.

Definition int32 (z : Z) : Prop := - 2 ^ 31 <= z < 2 ^ 31.

(** [x << k] *)
Definition shift_left (x k : Z) : Z :=
  ToInt32 (Z.shiftl (ToInt32 x) (k mod 32)).

(** [x & y] *)
Definition bit_and (x y : Z) : Z :=
  ToInt32 (Z.land (ToInt32 x) (ToInt32 y)).

(** ** Numbers *)

Inductive number : Type :=
| NaN
| NegInfinity
| Fin (q : Q)
| PosInfinity.

Definition of_Z (z : Z) : number := Fin (inject_Z z).

(** [a < b] *)
Definition num_lt (a b : number) : bool :=
  match a, b with
  | NaN, _ | _, NaN => false
  | _, NegInfinity => false
  | NegInfinity, _ => true
  | PosInfinity, _ => false
  | Fin _, PosInfinity => true
  | Fin x, Fin y => negb (Qle_bool y x)
  end.

(** [a <= b] *)
Definition num_le (a b : number) : bool :=
  match a, b with
  | NaN, _ | _, NaN => false
  | NegInfinity, _ => true
  | _, PosInfinity => true
  | _, NegInfinity => false
  | PosInfinity, _ => false
  | Fin x, Fin y => Qle_bool x y
  end.

(** [a > b] and [a >= b] *)
Definition num_gt (a b : number) : bool := num_lt b a.
Definition num_ge (a b : number) : bool := num_le b a.

(** [a === b] on numbers: NaN equals nothing. *)
Definition num_strict_eq (a b : number) : bool :=
  match a, b with
  | NegInfinity, NegInfinity => true
  | PosInfinity, PosInfinity => true
  | Fin x, Fin y => Qeq_bool x y
  | _, _ => false
  end.

(** SameValueZero on numbers: as [===], but NaN equals NaN. *)
Definition num_same_value_zero (a b : number) : bool :=
  match a, b with
  | NaN, NaN => true
  | _, _ => num_strict_eq a b
  end.

(** ** Values *)

(** A value of type [any].  An array or an object carries the reference
    that [===] compares; objects are the plain ones a JSON payload holds,
    of which the evaluator only ever asks the identity, [String(o)] and
    [Number(o)].  A function (the evaluator meets the ones every object
    inherits) carries its reference and the text [String(f)] prints. *)
#[warnings="-register-all"]
Inductive JsValue : Type :=
| VUndefined
| VNull
| VBool (b : bool)
| VNum (n : number)
| VStr (s : JsString)
| VArr (ref : nat) (elems : list JsValue)
| VObj (ref : nat)
| VFun (ref : nat) (source : JsString).

(** The two conversions between numbers and strings that [String(x)] and
    [Number(x)] rest on.  They are the engine's own (shortest round-trip
    printing, numeric-literal parsing) and are kept as an interface: every
    property below holds for any implementation of it. *)
Class JsBuiltins : Type := {
  NumberToString : number -> JsString;
  StringToNumber : JsString -> number
}.

Section Conversions.
Context {builtins : JsBuiltins}.

(** [String(v)].  An array prints its elements joined by commas, with
    [undefined] and [null] elements left empty. *)
Fixpoint ToString (v : JsValue) : JsString :=
  match v with
  | VUndefined => js "undefined"
  | VNull => js "null"
  | VBool true => js "true"
  | VBool false => js "false"
  | VNum n => NumberToString n
  | VStr s => s
  | VArr _ elems =>
      str_join (js ",")
        (List.map (fun e => match e with
                            | VUndefined | VNull => []
                            | _ => ToString e
                            end) elems)
  | VObj _ => js "[object Object]"
  | VFun _ source => source
  end.

(** [Number(v)].  Arrays and objects go through their string form. *)
Definition ToNumber (v : JsValue) : number :=
  match v with
  | VUndefined => NaN
  | VNull => of_Z 0
  | VBool true => of_Z 1
  | VBool false => of_Z 0
  | VNum n => n
  | VStr s => StringToNumber s
  | VArr _ _ | VObj _ | VFun _ _ => StringToNumber (ToString v)
  end.
End Conversions.

(** [a === b] *)
Definition strict_equal (a b : JsValue) : bool :=
  match a, b with
  | VUndefined, VUndefined => true
  | VNull, VNull => true
  | VBool x, VBool y => Bool.eqb x y
  | VNum x, VNum y => num_strict_eq x y
  | VStr x, VStr y => str_eqb x y
  | VArr r _, VArr r' _ => Nat.eqb r r'
  | VObj r, VObj r' => Nat.eqb r r'
  | VFun r _, VFun r' _ => Nat.eqb r r'
  | _, _ => false
  end.

(** SameValueZero, the equality of [Array.prototype.includes]. *)
Definition same_value_zero (a b : JsValue) : bool :=
  match a, b with
  | VNum x, VNum y => num_same_value_zero x y
  | _, _ => strict_equal a b
  end.

(** [Array.prototype.includes] *)
Definition array_includes (elems : list JsValue) (x : JsValue) : bool :=
  existsb (fun e => same_value_zero e x) elems.

(** [Array.isArray] *)
Definition isArray (v : JsValue) : bool :=
  match v with
  | VArr _ _ => true
  | _ => false
  end.

(** ** The data model of targeting.ts *)

(** The [operator] of a condition.  The declared type lists the first
    eight; [op_unknown] is any other string, which the [switch] sends to
    its [default] branch. *)
Inductive Operator : Type :=
| op_eq | op_ne | op_contains | op_in | op_gt | op_lt | op_gte | op_lte
| op_unknown (name : JsString).

Record TargetingCondition : Type := {
  attribute : JsString;
  operator : Operator;
  condition_value : JsValue
}.

Record TargetingRule : Type := {
  rule_id : JsString;
  description : JsString;
  conditions : list TargetingCondition;
  rolloutPercentage : number;
  rule_value : JsValue;
  rule_enabled : bool
}.

Record DefaultRule : Type := {
  default_rolloutPercentage : number;
  default_value : JsValue
}.

Record Targeting : Type := {
  enabled : bool;
  rules : list TargetingRule;
  defaultRule : DefaultRule
}.

(** [id?: string] and [attributes?: Record<string, any>].  The map holds
    the object's own entries; the object is a plain one, so a name it does
    not hold is looked up in [Object.prototype]. *)
Record UserContext : Type := {
  user_id : option JsString;
  attributes : option (gmap JsString JsValue)
}.

(** [{ matches, value }], the result of [evaluateRule]. *)
Record RuleResult : Type := {
  matches : bool;
  result_value : JsValue
}.

(** [{ enabled, value }], the result of [evaluateTargeting]. *)
Record EvaluationResult : Type := {
  flag_enabled : bool;
  flag_value : JsValue
}.

(** The text a built-in function prints as: [function name() { [native
    code] }]. *)
Definition native_function (name : JsString) : JsString :=
  js "function " ++ name ++ js "() { [native code] }".

(** The members every plain object inherits from [Object.prototype]:
    eleven functions, and [__proto__], which reads as [Object.prototype]
    itself. *)
Definition Object_prototype : list (JsString * JsValue) :=
  [ (js "constructor", VFun 0 (native_function (js "Object")));
    (js "__defineGetter__", VFun 1 (native_function (js "__defineGetter__")));
    (js "__defineSetter__", VFun 2 (native_function (js "__defineSetter__")));
    (js "hasOwnProperty", VFun 3 (native_function (js "hasOwnProperty")));
    (js "__lookupGetter__", VFun 4 (native_function (js "__lookupGetter__")));
    (js "__lookupSetter__", VFun 5 (native_function (js "__lookupSetter__")));
    (js "isPrototypeOf", VFun 6 (native_function (js "isPrototypeOf")));
    (js "propertyIsEnumerable",
     VFun 7 (native_function (js "propertyIsEnumerable")));
    (js "toString", VFun 8 (native_function (js "toString")));
    (js "valueOf", VFun 9 (native_function (js "valueOf")));
    (js "toLocaleString", VFun 10 (native_function (js "toLocaleString")));
    (js "__proto__", VObj 0) ].

Definition Object_prototype_member (name : JsString) : option JsValue :=
  match List.find (fun member => str_eqb (fst member) name) Object_prototype with
  | Some member => Some (snd member)
  | None => None
  end.

(** [user.attributes?.[name]]: [undefined] without an attribute object;
    the object's own entry when it has one; the inherited member
    otherwise, and [undefined] when there is none. *)
Definition attribute_of (user : UserContext) (name : JsString) : JsValue :=
  match attributes user with
  | None => VUndefined
  | Some attrs =>
      match attrs !! name with
      | Some v => v
      | None => default VUndefined (Object_prototype_member name)
      end
  end.

(** The truthiness of [user.id]: an absent id and the empty string are
    the falsy ones. *)
Definition truthy_id (user : UserContext) : option JsString :=
  match user_id user with
  | Some (c :: s) => Some (c :: s)
  | Some [] | None => None
  end.

(** ** Randomness *)

(** One call of [Math.random()], seen through the two expressions the
    engine puts it in: [draw_bucket] is [Math.floor(r * 100)] and
    [draw_text] is [String(r)], for the number [r] the call returned. *)
Record RandomDraw : Type := {
  draw_bucket : Z;
  draw_text : JsString
}.

(** The successive results of [Math.random()]. *)
Definition RandomSource := nat -> RandomDraw.

(** [Math.random()] returns a number in [0, 1), so the bucket of every
    draw is one of 0..99. *)
Definition source_in_range (src : RandomSource) : Prop :=
  forall n, 0 <= draw_bucket (src n) < 100.

(** A computation that may call [Math.random()]: it reads the source and
    the number of draws made so far, and returns its result with the new
    count. *)
Definition Rand (A : Type) : Type := RandomSource -> nat -> A * nat.

Definition ret {A : Type} (a : A) : Rand A := fun _ n => (a, n).

Definition bind {A B : Type} (m : Rand A) (k : A -> Rand B) : Rand B :=
  fun src n => let (a, n') := m src n in k a src n'.

Definition Math_random : Rand RandomDraw := fun src n => (src n, S n).

Declare Scope rand_scope.
Delimit Scope rand_scope with rand.
Notation "'let*' x ':=' m 'in' k" := (bind m (fun x => k))
  (at level 10, x name, m at level 100, k at level 200) : rand_scope.

(** ** The rule and targeting evaluator

    [evaluateRule] and [evaluateTargeting] read the same in both files, up
    to the name of the condition evaluator they call; they are written once
    here over the two callees and instantiated in each module below. *)
Module Engine.
Section Callees.
Variable evaluateCondition : TargetingCondition -> UserContext -> bool.
Variable isInRollout : JsString -> JsString -> number -> bool.

Local Open Scope rand_scope.

Definition evaluateRule (rule : TargetingRule) (user : UserContext)
    (flagKey : JsString) : Rand RuleResult :=
  if negb (rule_enabled rule) then
    ret {| matches := false; result_value := VUndefined |}
  else
    let allConditionsMatch :=
      forallb (fun condition => evaluateCondition condition user)
              (conditions rule) in
    if negb allConditionsMatch then
      ret {| matches := false; result_value := VUndefined |}
    else
      match truthy_id user with
      | None =>
          let* r := Math_random in
          let randomBucket := draw_bucket r in
          ret {| matches := num_lt (of_Z randomBucket) (rolloutPercentage rule);
                 result_value := rule_value rule |}
      | Some id =>
          let inRollout := isInRollout id flagKey (rolloutPercentage rule) in
          ret {| matches := inRollout; result_value := rule_value rule |}
      end.

(** The [for (const rule of targeting.rules)] loop: the result of the
    first rule that matches, if one does. *)
Fixpoint evaluateRules (rules : list TargetingRule) (user : UserContext)
    (flagKey : JsString) : Rand (option EvaluationResult) :=
  match rules with
  | [] => ret None
  | rule :: rest =>
      let* result := evaluateRule rule user flagKey in
      if matches result then
        ret (Some {| flag_enabled := true; flag_value := result_value result |})
      else evaluateRules rest user flagKey
  end.

(** [user.id || `anon-${Math.random()}`] *)
Definition fallbackUserId (user : UserContext) : Rand JsString :=
  match truthy_id user with
  | Some id => ret id
  | None => let* r := Math_random in ret (js "anon-" ++ draw_text r)
  end.

Definition evaluateTargeting (flagKey : JsString) (targeting : option Targeting)
    (user : UserContext) (defaultValue : JsValue) : Rand EvaluationResult :=
  match targeting with
  | None => ret {| flag_enabled := true; flag_value := defaultValue |}
  | Some targeting =>
      if negb (enabled targeting) then
        ret {| flag_enabled := true; flag_value := defaultValue |}
      else
        let* found := evaluateRules (rules targeting) user flagKey in
        match found with
        | Some result => ret result
        | None =>
            let* userId := fallbackUserId user in
            let inDefaultRollout :=
              isInRollout userId flagKey
                (default_rolloutPercentage (defaultRule targeting)) in
            ret {| flag_enabled := inDefaultRollout;
                   flag_value := default_value (defaultRule targeting) |}
        end
  end.
End Callees.
End Engine.

(** ** src/apps/dashboard/lib/targeting.ts *)
Module DashboardLib.

(** The raw rollout hash: a non-negative integer, not yet a bucket. *)
Definition hashString (str : JsString) : Z :=
  let hash :=
    fold_left (fun hash char =>
                 let hash := shift_left hash 5 - hash + char in
                 bit_and hash hash)
              str 0 in
  Z.abs hash.

Definition isInRollout (userId flagKey : JsString) (percentage : number) : bool :=
  if num_strict_eq percentage (of_Z 0) then false
  else if num_strict_eq percentage (of_Z 100) then true
  else
    let combinedStr := flagKey ++ js ":" ++ userId in
    let hash := hashString combinedStr in
    let bucket := Z.rem hash 100 in
    num_lt (of_Z bucket) percentage.

Section WithBuiltins.
Context {builtins : JsBuiltins}.

Definition evaluateCondition (condition : TargetingCondition)
    (user : UserContext) : bool :=
  let userValue := attribute_of user (attribute condition) in
  if strict_equal userValue VUndefined then false
  else
    match operator condition with
    | op_eq => strict_equal userValue (condition_value condition)
    | op_ne => negb (strict_equal userValue (condition_value condition))
    | op_contains =>
        str_includes (ToString userValue) (ToString (condition_value condition))
    | op_in =>
        isArray (condition_value condition)
        && match condition_value condition with
           | VArr _ elems => array_includes elems userValue
           | _ => false
           end
    | op_gt => num_gt (ToNumber userValue) (ToNumber (condition_value condition))
    | op_lt => num_lt (ToNumber userValue) (ToNumber (condition_value condition))
    | op_gte => num_ge (ToNumber userValue) (ToNumber (condition_value condition))
    | op_lte => num_le (ToNumber userValue) (ToNumber (condition_value condition))
    | op_unknown _ => false
    end.

Definition evaluateRule : TargetingRule -> UserContext -> JsString -> Rand RuleResult :=
  Engine.evaluateRule evaluateCondition isInRollout.

Definition evaluateTargeting
  : JsString -> option Targeting -> UserContext -> JsValue -> Rand EvaluationResult :=
  Engine.evaluateTargeting evaluateCondition isInRollout.
End WithBuiltins.
End DashboardLib.

(** ** src/unnamed/part_005 *)
Module Part005.

(** The rollout hash, already reduced to a bucket. *)
Definition hashString (str : JsString) : Z :=
  let hash :=
    fold_left (fun hash char =>
                 let hash := shift_left hash 5 - hash + char in
                 bit_and hash hash)
              str 0 in
  Z.rem (Z.abs hash) 100.

Definition isInRollout (userId flagKey : JsString) (percentage : number) : bool :=
  if num_strict_eq percentage (of_Z 0) then false
  else if num_strict_eq percentage (of_Z 100) then true
  else
    let combinedStr := flagKey ++ js ":" ++ userId in
    let bucket := hashString combinedStr in
    num_lt (of_Z bucket) percentage.

Section WithBuiltins.
Context {builtins : JsBuiltins}.

Definition evaluateCondition (userValue : JsValue) (operator : Operator)
    (conditionValue : JsValue) : bool :=
  if strict_equal userValue VUndefined then false
  else
    match operator with
    | op_eq => strict_equal userValue conditionValue
    | op_ne => negb (strict_equal userValue conditionValue)
    | op_contains => str_includes (ToString userValue) (ToString conditionValue)
    | op_in =>
        let values :=
          match conditionValue with
          | VArr _ elems => elems
          | _ => List.map (fun v => VStr (str_trim v))
                          (str_split 44 (ToString conditionValue))
          end in
        array_includes values userValue
    | op_gt => num_gt (ToNumber userValue) (ToNumber conditionValue)
    | op_lt => num_lt (ToNumber userValue) (ToNumber conditionValue)
    | op_gte => num_ge (ToNumber userValue) (ToNumber conditionValue)
    | op_lte => num_le (ToNumber userValue) (ToNumber conditionValue)
    | op_unknown _ => false
    end.

Definition evaluateConditionWithUser (condition : TargetingCondition)
    (user : UserContext) : bool :=
  let userValue := attribute_of user (attribute condition) in
  evaluateCondition userValue (operator condition) (condition_value condition).

Definition evaluateRule : TargetingRule -> UserContext -> JsString -> Rand RuleResult :=
  Engine.evaluateRule evaluateConditionWithUser isInRollout.

Definition evaluateTargeting
  : JsString -> option Targeting -> UserContext -> JsValue -> Rand EvaluationResult :=
  Engine.evaluateTargeting evaluateConditionWithUser isInRollout.
End WithBuiltins.
End Part005.

(** ** An implementation of the conversions on integers

    Decimal printing and parsing of integers.  The closed examples below
    run with it; none of them converts a number, and each holds with any
    other implementation as well. *)

Fixpoint decimal_digits (fuel : nat) (n : Z) (acc : JsString) : JsString :=
  match fuel with
  | O => acc
  | S fuel' =>
      let acc' := (48 + n mod 10) :: acc in
      if n / 10 =? 0 then acc' else decimal_digits fuel' (n / 10) acc'
  end.

Definition print_integer (z : Z) : JsString :=
  let digits n := decimal_digits (S (Z.to_nat (Z.log2 n))) n [] in
  if z <? 0 then 45 :: digits (- z) else digits z.

Fixpoint parse_digits (s : JsString) (acc : Z) : option Z :=
  match s with
  | [] => Some acc
  | c :: s' =>
      if (48 <=? c) && (c <=? 57) then parse_digits s' (10 * acc + (c - 48))
      else None
  end.

Definition parse_integer (s : JsString) : number :=
  match str_trim s with
  | [] => of_Z 0
  | 45 :: (_ :: _) as digits =>
      match parse_digits digits 0 with Some n => of_Z (- n) | None => NaN end
  | 43 :: (_ :: _) as digits | (_ :: _) as digits =>
      match parse_digits digits 0 with Some n => of_Z n | None => NaN end
  end.

Definition integer_builtins : JsBuiltins := {|
  NumberToString n :=
    match n with
    | NaN => js "NaN"
    | PosInfinity => js "Infinity"
    | NegInfinity => js "-Infinity"
    | Fin q => print_integer (Qnum q / Zpos (Qden q))
    end;
  StringToNumber := parse_integer
|}.

(** ** What it means for the rules not to match

    The rollout gate of a rule, as [evaluateRule] applies it once the rule
    is enabled and its conditions hold: the hash bucket of a user with a
    (non-empty) id, the bucket of the next draw otherwise.  The gate takes
    one draw for a user without an id and none for the others. *)
Section Misses.
Variable evaluateCondition : TargetingCondition -> UserContext -> bool.
Variable isInRollout : JsString -> JsString -> number -> bool.
Variable user : UserContext.
Variable flagKey : JsString.
Variable src : RandomSource.

Definition rollout_gate (n : nat) (percentage : number) : bool :=
  match truthy_id user with
  | Some id => isInRollout id flagKey percentage
  | None => num_lt (of_Z (draw_bucket (src n))) percentage
  end.

Definition after_gate (n : nat) : nat :=
  match truthy_id user with
  | Some _ => n
  | None => S n
  end.

(** The three ways a rule does not match; the two indices are the
    number of draws made before and after the rule. *)
Inductive rule_misses : TargetingRule -> nat -> nat -> Prop :=
| miss_disabled rule n :
    rule_enabled rule = false ->
    rule_misses rule n n
| miss_condition rule condition n :
    rule_enabled rule = true ->
    In condition (conditions rule) ->
    evaluateCondition condition user = false ->
    rule_misses rule n n
| miss_rollout rule n :
    rule_enabled rule = true ->
    (forall condition, In condition (conditions rule) ->
                       evaluateCondition condition user = true) ->
    rollout_gate n (rolloutPercentage rule) = false ->
    rule_misses rule n (after_gate n).

Inductive no_rule_matches : list TargetingRule -> nat -> nat -> Prop :=
| no_match_nil n : no_rule_matches [] n n
| no_match_cons rule rest n n' n'' :
    rule_misses rule n n' ->
    no_rule_matches rest n' n'' ->
    no_rule_matches (rule :: rest) n n''.

(** The id the default rule is tested with, [n] draws having been made:
    [user.id || `anon-${Math.random()}`]. *)
Definition effectiveUserId (n : nat) : JsString :=
  match truthy_id user with
  | Some id => id
  | None => js "anon-" ++ draw_text (src n)
  end.
End Misses.

(** ** Data for the examples *)

(** A source whose every draw falls in bucket [b]. *)
Definition constant_source (b : Z) : RandomSource :=
  fun _ => {| draw_bucket := b; draw_text := js "0." ++ print_integer b |}.

Definition plan_is_premium : TargetingCondition :=
  {| attribute := js "plan"; operator := op_eq;
     condition_value := VStr (js "premium") |}.

Definition country_in_list : TargetingCondition :=
  {| attribute := js "country"; operator := op_in;
     condition_value := VStr (js "TR,US,UK") |}.

Definition premium_user (id : option JsString) : UserContext :=
  {| user_id := id;
     attributes := Some {[ js "plan" := VStr (js "premium") ]} |}.

Definition turkish_user : UserContext :=
  {| user_id := Some (js "u1");
     attributes := Some {[ js "country" := VStr (js "TR") ]} |}.

Definition premium_rule (percentage : Z) (v : JsValue) : TargetingRule :=
  {| rule_id := js "rule-1"; description := js "Premium users";
     conditions := [plan_is_premium];
     rolloutPercentage := of_Z percentage;
     rule_value := v; rule_enabled := true |}.

Definition everyone_rule (percentage : Z) (v : JsValue) : TargetingRule :=
  {| rule_id := js "rule-2"; description := js "Everyone";
     conditions := [];
     rolloutPercentage := of_Z percentage;
     rule_value := v; rule_enabled := true |}.

Definition off_by_default : DefaultRule :=
  {| default_rolloutPercentage := of_Z 0; default_value := VBool false |}.

Definition half_rollout : Targeting :=
  {| enabled := true;
     rules := [everyone_rule 50 (VBool true)];
     defaultRule := off_by_default |}.

Definition free_user : UserContext :=
  {| user_id := Some (js "u1");
     attributes := Some {[ js "plan" := VStr (js "free") ]} |}.

Definition fallback_rule : DefaultRule :=
  {| default_rolloutPercentage := of_Z 0;
     default_value := VStr (js "fallback") |}.

(** Three rules that miss [free_user], each in its own way: the first is
    disabled, the second asks for the premium plan, the third is rolled
    out to nobody. *)
Definition three_misses : Targeting :=
  {| enabled := true;
     rules := [ {| rule_id := js "rule-0"; description := js "Switched off";
                   conditions := []; rolloutPercentage := of_Z 100;
                   rule_value := VStr (js "off"); rule_enabled := false |};
                premium_rule 100 (VStr (js "premium"));
                everyone_rule 0 (VStr (js "nobody")) ];
     defaultRule := fallback_rule |}.

(** Two rules that both fit [premium_user]: the first rolled out to
    nobody, the second to everybody. *)
Definition cascade : Targeting :=
  {| enabled := true;
     rules := [ premium_rule 0 (VStr (js "first"));
                everyone_rule 100 (VStr (js "second")) ];
     defaultRule := fallback_rule |}.

(** The fixture of apps/dashboard/__tests__/lib/targeting.test.ts. *)
Definition mockTargeting : Targeting :=
  {| enabled := true;
     rules := [premium_rule 100 (VBool true)];
     defaultRule := off_by_default |}.

(** The ids ["user-0"] .. ["user-99"] of the distribution tests. *)
Definition hundred_users : list JsString :=
  List.map (fun i => js "user-" ++ print_integer (Z.of_nat i)) (seq 0 100).

(** ** The targeting constructors

    [createPercentageRollout] and [createAttributeTargeting] read the same
    in both files. *)

(** An operator as the string a template literal prints. *)
Definition operator_name (op : Operator) : JsString :=
  match op with
  | op_eq => js "eq"
  | op_ne => js "ne"
  | op_contains => js "contains"
  | op_in => js "in"
  | op_gt => js "gt"
  | op_lt => js "lt"
  | op_gte => js "gte"
  | op_lte => js "lte"
  | op_unknown name => name
  end.

Definition createPercentageRollout (percentage : number) (value : JsValue)
    : Targeting :=
  {| enabled := true;
     rules := [];
     defaultRule := {| default_rolloutPercentage := percentage;
                       default_value := value |} |}.

Section Constructors.
Context {builtins : JsBuiltins}.

Definition createAttributeTargeting (attribute_name : JsString) (op : Operator)
    (value targetValue : JsValue) : Targeting :=
  {| enabled := true;
     rules :=
       [ {| rule_id := attribute_name ++ js "-rule";
            description :=
              js "Users where " ++ attribute_name ++ js " "
              ++ operator_name op ++ js " " ++ ToString value;
            conditions :=
              [ {| attribute := attribute_name;
                   operator := op;
                   condition_value := value |} ];
            rolloutPercentage := of_Z 100;
            rule_value := targetValue;
            rule_enabled := true |} ];
     defaultRule := {| default_rolloutPercentage := of_Z 0;
                       default_value := VBool false |} |}.
End Constructors.

(** ** Vocabulary for the further properties *)

(** The hash of the specification: [h := 31 * h + c] over the code units,
    without any wrap-around. *)
Definition polynomial_hash (str : JsString) : Z :=
  fold_left (fun h c => 31 * h + c) str 0.

(** A rule that reaches its rollout gate: enabled, and every condition
    holds for the user. *)
Definition eligible (evaluateCondition : TargetingCondition -> UserContext -> bool)
    (user : UserContext) (rule : TargetingRule) : bool :=
  rule_enabled rule
  && forallb (fun condition => evaluateCondition condition user) (conditions rule).

(** The operand of a condition is one both copies treat alike: any
    operand of an operator other than [in], an array for [in]. *)
Definition portable (condition : TargetingCondition) : bool :=
  match operator condition with
  | op_in => isArray (condition_value condition)
  | _ => true
  end.

(** A string [trim] leaves alone and [split(',')] does not cut. *)
Definition plain_piece (s : JsString) : bool :=
  forallb (fun c => negb (c =? 44)) s
  && match s with
     | [] => true
     | c :: _ => negb (is_white_space c) && negb (is_white_space (List.last s 0))
     end.

Definition is_string (v : JsValue) : bool :=
  match v with
  | VStr _ => true
  | _ => false
  end.

(** * Properties *)

(** ** 32-bit arithmetic and the hash *)

Lemma ToInt32_int32 (z : Z) : int32 (ToInt32 z).
Proof.
  unfold int32, ToInt32.
  pose proof (Z.mod_pos_bound (z + 2 ^ 31) (2 ^ 32) eq_refl). lia.
Qed.

Lemma ToInt32_of_int32 (z : Z) : int32 z -> ToInt32 z = z.
Proof.
  unfold int32, ToInt32. intros Hz.
  rewrite Z.mod_small; lia.
Qed.

Lemma bit_and_int32 (x y : Z) : int32 (bit_and x y).
Proof. apply ToInt32_int32. Qed.

(** [hash & hash] is [hash] brought into the 32-bit range. *)
Lemma bit_and_self (x : Z) : bit_and x x = ToInt32 x.
Proof.
  unfold bit_and. rewrite Z.land_diag.
  apply ToInt32_of_int32, ToInt32_int32.
Qed.

(** The accumulator of the hash loop is a 32-bit integer after every
    iteration. *)
Lemma hash_loop_int32 (str : JsString) (acc : Z) :
  int32 acc ->
  int32 (fold_left (fun hash char =>
                      let hash := shift_left hash 5 - hash + char in
                      bit_and hash hash) str acc).
Proof.
  revert acc. induction str as [|c str IH]; intros acc Hacc; simpl.
  - exact Hacc.
  - apply IH, bit_and_int32.
Qed.

Lemma zero_int32 : int32 0.
Proof. unfold int32. lia. Qed.

Lemma DashboardLib_hashString_bounds (str : JsString) :
  0 <= DashboardLib.hashString str <= 2 ^ 31.
Proof.
  unfold DashboardLib.hashString.
  pose proof (hash_loop_int32 str 0 zero_int32) as H.
  unfold int32 in H. cbv zeta. lia.
Qed.

Lemma hashString_reduced (str : JsString) :
  Part005.hashString str = Z.rem (DashboardLib.hashString str) 100.
Proof. reflexivity. Qed.

Lemma Part005_hashString_bounds (str : JsString) :
  0 <= Part005.hashString str < 100.
Proof.
  rewrite hashString_reduced.
  apply Z.rem_bound_pos; [apply DashboardLib_hashString_bounds | lia].
Qed.

(** ** Comparisons with a bucket *)

Lemma inject_Z_le (a b : Z) : a <= b -> (inject_Z a <= inject_Z b)%Q.
Proof. intros H. rewrite <- Zle_Qle. exact H. Qed.

(** A bucket is never below a percentage that is at most 0. *)
Lemma bucket_not_below (b : Z) (p : number) :
  0 <= b -> num_le p (of_Z 0) = true -> num_lt (of_Z b) p = false.
Proof.
  intros Hb Hp. destruct p as [| |q|]; simpl in *; try reflexivity; try discriminate.
  apply Qle_bool_iff in Hp.
  apply negb_false_iff, Qle_bool_iff.
  eapply Qle_trans; [exact Hp|]. now apply inject_Z_le.
Qed.

(** A bucket is always below a percentage that is at least 100. *)
Lemma bucket_below (b : Z) (p : number) :
  b < 100 -> num_ge p (of_Z 100) = true -> num_lt (of_Z b) p = true.
Proof.
  intros Hb Hp. unfold num_ge in Hp.
  destruct p as [| |q|]; simpl in *; try reflexivity; try discriminate.
  apply Qle_bool_iff in Hp.
  apply negb_true_iff. destruct (Qle_bool q (inject_Z b)) eqn:E; [|reflexivity].
  apply Qle_bool_iff in E.
  assert (H : (inject_Z 100 <= inject_Z b)%Q) by (eapply Qle_trans; eassumption).
  rewrite <- Zle_Qle in H. lia.
Qed.

Lemma strict_eq_zero_not_ge_100 (p : number) :
  num_strict_eq p (of_Z 0) = true -> num_ge p (of_Z 100) = false.
Proof.
  destruct p as [| |q|]; simpl; try discriminate.
  intros H. apply Qeq_bool_iff in H. unfold num_ge; simpl.
  destruct (Qle_bool (inject_Z 100) q) eqn:E; [|reflexivity].
  apply Qle_bool_iff in E. rewrite H in E.
  rewrite <- Zle_Qle in E. lia.
Qed.

Lemma strict_eq_100_not_le_zero (p : number) :
  num_strict_eq p (of_Z 100) = true -> num_le p (of_Z 0) = false.
Proof.
  destruct p as [| |q|]; simpl; try discriminate.
  intros H. apply Qeq_bool_iff in H.
  destruct (Qle_bool q (inject_Z 0)) eqn:E; [|reflexivity].
  apply Qle_bool_iff in E. rewrite H in E.
  rewrite <- Zle_Qle in E. lia.
Qed.

(** ** The rollout-membership test *)

Lemma isInRollout_agree (userId flagKey : JsString) (percentage : number) :
  DashboardLib.isInRollout userId flagKey percentage
  = Part005.isInRollout userId flagKey percentage.
Proof. reflexivity. Qed.

Lemma Part005_isInRollout_le_zero (userId flagKey : JsString) (p : number) :
  num_le p (of_Z 0) = true -> Part005.isInRollout userId flagKey p = false.
Proof.
  intros Hp. unfold Part005.isInRollout.
  destruct (num_strict_eq p (of_Z 0)); [reflexivity|].
  destruct (num_strict_eq p (of_Z 100)) eqn:E100.
  - apply strict_eq_100_not_le_zero in E100. congruence.
  - cbv zeta. apply bucket_not_below; [|exact Hp].
    apply Part005_hashString_bounds.
Qed.

Lemma Part005_isInRollout_ge_100 (userId flagKey : JsString) (p : number) :
  num_ge p (of_Z 100) = true -> Part005.isInRollout userId flagKey p = true.
Proof.
  intros Hp. unfold Part005.isInRollout.
  destruct (num_strict_eq p (of_Z 0)) eqn:E0.
  - apply strict_eq_zero_not_ge_100 in E0. congruence.
  - destruct (num_strict_eq p (of_Z 100)); [reflexivity|].
    cbv zeta. apply bucket_below; [|exact Hp].
    apply Part005_hashString_bounds.
Qed.

(** ** The rule loop *)

Lemma forallb_false_witness {A : Type} (f : A -> bool) (l : list A) :
  forallb f l = false -> exists x, In x l /\ f x = false.
Proof.
  induction l as [|a l IH]; simpl; [discriminate|].
  destruct (f a) eqn:Ha; simpl.
  - intros H. destruct (IH H) as (x & Hx & Hfx). exists x. auto.
  - intros _. exists a. auto.
Qed.

Lemma forallb_pointwise {A : Type} (f g : A -> bool) (l : list A) :
  (forall x, f x = g x) -> forallb f l = forallb g l.
Proof.
  intros Hfg. induction l as [|a l IH]; simpl; [reflexivity|].
  now rewrite Hfg, IH.
Qed.

Section EngineFacts.
Variable evaluateCondition : TargetingCondition -> UserContext -> bool.
Variable isInRollout : JsString -> JsString -> number -> bool.
Variable user : UserContext.
Variable flagKey : JsString.
Variable src : RandomSource.

Let evaluateRule := Engine.evaluateRule evaluateCondition isInRollout.
Let evaluateRules := Engine.evaluateRules evaluateCondition isInRollout.
Let evaluateTargeting := Engine.evaluateTargeting evaluateCondition isInRollout.
Let gate := rollout_gate isInRollout user flagKey src.
Let misses := rule_misses evaluateCondition isInRollout user flagKey src.
Let no_match := no_rule_matches evaluateCondition isInRollout user flagKey src.

(** [evaluateRule] in one equation: a rule that is enabled and whose
    conditions all hold answers with its rollout gate, any other rule
    does not match and takes no draw. *)
Lemma evaluateRule_eq (rule : TargetingRule) (n : nat) :
  evaluateRule rule user flagKey src n =
  if rule_enabled rule
     && forallb (fun condition => evaluateCondition condition user)
                (conditions rule)
  then ({| matches := gate n (rolloutPercentage rule);
           result_value := rule_value rule |}, after_gate user n)
  else ({| matches := false; result_value := VUndefined |}, n).
Proof.
  subst evaluateRule gate.
  unfold Engine.evaluateRule, rollout_gate, after_gate.
  destruct (rule_enabled rule); simpl; [|reflexivity].
  destruct (forallb _ (conditions rule)); simpl; [|reflexivity].
  destruct (truthy_id user); reflexivity.
Qed.

Lemma rule_misses_sound (rule : TargetingRule) (n n' : nat) :
  misses rule n n' ->
  matches (fst (evaluateRule rule user flagKey src n)) = false
  /\ snd (evaluateRule rule user flagKey src n) = n'.
Proof.
  intros H. rewrite evaluateRule_eq.
  destruct H as [rule n Hoff | rule c n Hon Hc Hfalse | rule n Hon Hall Hgate].
  - rewrite Hoff. simpl. auto.
  - rewrite Hon. simpl.
    destruct (forallb _ (conditions rule)) eqn:E; simpl; [|auto].
    rewrite forallb_forall in E. specialize (E c Hc). simpl in E. congruence.
  - rewrite Hon. simpl.
    assert (E : forallb (fun c => evaluateCondition c user) (conditions rule) = true)
      by (apply forallb_forall; exact Hall).
    rewrite E. simpl. auto.
Qed.

Lemma rule_misses_complete (rule : TargetingRule) (n : nat) :
  matches (fst (evaluateRule rule user flagKey src n)) = false ->
  misses rule n (snd (evaluateRule rule user flagKey src n)).
Proof.
  rewrite evaluateRule_eq.
  destruct (rule_enabled rule) eqn:Hon; simpl.
  - destruct (forallb _ (conditions rule)) eqn:E; simpl.
    + intros Hgate. apply miss_rollout; [exact Hon| |exact Hgate].
      apply forallb_forall. exact E.
    + intros _. apply forallb_false_witness in E as (c & Hc & Hfalse).
      eapply miss_condition; eauto.
  - intros _. apply miss_disabled. exact Hon.
Qed.

(** A rule that misses hands the evaluation over to the rules after it. *)
Lemma evaluateRules_miss (rule : TargetingRule) (rest : list TargetingRule)
    (n n' : nat) :
  misses rule n n' ->
  evaluateRules (rule :: rest) user flagKey src n
  = evaluateRules rest user flagKey src n'.
Proof.
  intros H. apply rule_misses_sound in H as [Hm Hn].
  subst evaluateRules evaluateRule. simpl. unfold bind at 1.
  destruct (Engine.evaluateRule _ _ rule user flagKey src n) as [result k].
  simpl in Hm, Hn. subst k. rewrite Hm. reflexivity.
Qed.

(** A rule that matches ends the loop with its value. *)
Lemma evaluateRules_hit (rule : TargetingRule) (rest : list TargetingRule)
    (n : nat) :
  matches (fst (evaluateRule rule user flagKey src n)) = true ->
  evaluateRules (rule :: rest) user flagKey src n
  = (Some {| flag_enabled := true;
             flag_value := result_value (fst (evaluateRule rule user flagKey src n)) |},
     snd (evaluateRule rule user flagKey src n)).
Proof.
  intros Hm. subst evaluateRules evaluateRule. simpl. unfold bind at 1.
  destruct (Engine.evaluateRule _ _ rule user flagKey src n) as [result k].
  simpl in *. rewrite Hm. reflexivity.
Qed.

Lemma evaluateRules_no_match (rules : list TargetingRule) (n n' : nat) :
  no_match rules n n' ->
  evaluateRules rules user flagKey src n = (None, n').
Proof.
  induction 1 as [n | rule rest n n' n'' Hmiss _ IH].
  - reflexivity.
  - rewrite (evaluateRules_miss rule rest n n' Hmiss). exact IH.
Qed.

Lemma evaluateRules_none_inv (rules : list TargetingRule) (n n' : nat) :
  evaluateRules rules user flagKey src n = (None, n') ->
  no_match rules n n'.
Proof.
  revert n. induction rules as [|rule rest IH]; intros n H.
  - injection H as <-. apply no_match_nil.
  - destruct (matches (fst (evaluateRule rule user flagKey src n))) eqn:Hm.
    + rewrite (evaluateRules_hit rule rest n Hm) in H. discriminate.
    + apply rule_misses_complete in Hm.
      rewrite (evaluateRules_miss rule rest n _ Hm) in H.
      eapply no_match_cons; [exact Hm | apply IH, H].
Qed.

(** [evaluateTargeting] on an enabled targeting, in terms of the loop. *)
Lemma evaluateTargeting_enabled (targeting : Targeting) (defaultValue : JsValue)
    (n : nat) :
  enabled targeting = true ->
  evaluateTargeting flagKey (Some targeting) user defaultValue src n
  = match evaluateRules (rules targeting) user flagKey src n with
    | (Some result, n') => (result, n')
    | (None, n') =>
        ({| flag_enabled :=
              isInRollout (effectiveUserId user src n') flagKey
                (default_rolloutPercentage (defaultRule targeting));
            flag_value := default_value (defaultRule targeting) |},
         after_gate user n')
    end.
Proof.
  intros Hon. subst evaluateTargeting evaluateRules.
  unfold Engine.evaluateTargeting. rewrite Hon. cbn [negb].
  unfold bind at 1.
  destruct (Engine.evaluateRules _ _ (rules targeting) user flagKey src n)
    as [[result|] n']; [reflexivity|].
  unfold Engine.fallbackUserId, effectiveUserId, after_gate.
  destruct (truthy_id user); reflexivity.
Qed.

(** With no matching rule an enabled targeting answers with its default
    rule. *)
Lemma evaluateTargeting_fallback (targeting : Targeting) (defaultValue : JsValue)
    (n n' : nat) :
  enabled targeting = true ->
  no_match (rules targeting) n n' ->
  evaluateTargeting flagKey (Some targeting) user defaultValue src n
  = ({| flag_enabled :=
          isInRollout (effectiveUserId user src n') flagKey
            (default_rolloutPercentage (defaultRule targeting));
        flag_value := default_value (defaultRule targeting) |},
     after_gate user n').
Proof.
  intros Hon Hnone. rewrite (evaluateTargeting_enabled _ _ _ Hon).
  rewrite (evaluateRules_no_match _ _ _ Hnone). reflexivity.
Qed.

(** A first rule that matches decides an enabled targeting. *)
Lemma evaluateTargeting_first_hit (rule : TargetingRule)
    (rest : list TargetingRule) (d : DefaultRule) (defaultValue : JsValue)
    (n : nat) :
  matches (fst (evaluateRule rule user flagKey src n)) = true ->
  evaluateTargeting flagKey
    (Some {| enabled := true; rules := rule :: rest; defaultRule := d |})
    user defaultValue src n
  = ({| flag_enabled := true;
        flag_value := result_value (fst (evaluateRule rule user flagKey src n)) |},
     snd (evaluateRule rule user flagKey src n)).
Proof.
  intros Hm. rewrite evaluateTargeting_enabled by reflexivity.
  cbn [rules]. rewrite (evaluateRules_hit rule rest n Hm). reflexivity.
Qed.

(** A first rule that misses leaves the decision to the targeting made
    of the other rules. *)
Lemma evaluateTargeting_skip (rule : TargetingRule)
    (rest : list TargetingRule) (d : DefaultRule) (defaultValue : JsValue)
    (n n' : nat) :
  misses rule n n' ->
  evaluateTargeting flagKey
    (Some {| enabled := true; rules := rule :: rest; defaultRule := d |})
    user defaultValue src n
  = evaluateTargeting flagKey
      (Some {| enabled := true; rules := rest; defaultRule := d |})
      user defaultValue src n'.
Proof.
  intros Hmiss. rewrite !evaluateTargeting_enabled by reflexivity.
  cbn [rules defaultRule].
  rewrite (evaluateRules_miss rule rest n n' Hmiss). reflexivity.
Qed.
End EngineFacts.

(** ** Users with and without an id *)

Section Identity.
Variable evaluateCondition : TargetingCondition -> UserContext -> bool.
Variable isInRollout : JsString -> JsString -> number -> bool.
Variable flagKey : JsString.

Let evaluateRule := Engine.evaluateRule evaluateCondition isInRollout.
Let evaluateRules := Engine.evaluateRules evaluateCondition isInRollout.
Let evaluateTargeting := Engine.evaluateTargeting evaluateCondition isInRollout.

(** For a user with a non-empty id no rule takes a draw, and what a rule
    answers does not depend on the source. *)
Lemma evaluateRule_identified (user : UserContext) (id : JsString)
    (rule : TargetingRule) (src1 src2 : RandomSource) (n1 n2 : nat) :
  truthy_id user = Some id ->
  fst (evaluateRule rule user flagKey src1 n1)
  = fst (evaluateRule rule user flagKey src2 n2)
  /\ snd (evaluateRule rule user flagKey src1 n1) = n1.
Proof.
  intros Hid. unfold evaluateRule in *. rewrite !evaluateRule_eq.
  unfold rollout_gate, after_gate. rewrite Hid.
  destruct (rule_enabled rule && forallb _ (conditions rule)); simpl; auto.
Qed.

Lemma evaluateRules_identified (user : UserContext) (id : JsString)
    (rules : list TargetingRule) (src1 src2 : RandomSource) (n1 n2 : nat) :
  truthy_id user = Some id ->
  fst (evaluateRules rules user flagKey src1 n1)
  = fst (evaluateRules rules user flagKey src2 n2)
  /\ snd (evaluateRules rules user flagKey src1 n1) = n1.
Proof.
  intros Hid. unfold evaluateRules in *.
  induction rules as [|rule rest IH]; simpl; [auto|].
  unfold bind.
  destruct (evaluateRule_identified user id rule src1 src2 n1 n2 Hid) as [Hr Hn].
  unfold evaluateRule in *.
  destruct (Engine.evaluateRule _ _ rule user flagKey src1 n1) as [r1 k1].
  destruct (Engine.evaluateRule _ _ rule user flagKey src2 n2) as [r2 k2] eqn:E2.
  pose proof (evaluateRule_identified user id rule src2 src1 n2 n1 Hid) as [_ Hn2].
  unfold evaluateRule in *. rewrite E2 in Hn2.
  simpl in Hr, Hn, Hn2. subst r2 k1 k2.
  destruct (matches r1); simpl; auto.
Qed.

Lemma evaluateTargeting_identified (user : UserContext) (id : JsString)
    (targeting : option Targeting) (defaultValue : JsValue)
    (src1 src2 : RandomSource) (n1 n2 : nat) :
  truthy_id user = Some id ->
  fst (evaluateTargeting flagKey targeting user defaultValue src1 n1)
  = fst (evaluateTargeting flagKey targeting user defaultValue src2 n2)
  /\ snd (evaluateTargeting flagKey targeting user defaultValue src1 n1) = n1.
Proof.
  intros Hid. destruct targeting as [targeting|]; [|simpl; auto].
  destruct (enabled targeting) eqn:Hon.
  - unfold evaluateTargeting in *. rewrite !evaluateTargeting_enabled by exact Hon.
    destruct (evaluateRules_identified user id (rules targeting) src1 src2 n1 n2 Hid)
      as [Hr Hn].
    pose proof (evaluateRules_identified user id (rules targeting) src2 src1 n2 n1 Hid)
      as [_ Hn2].
    unfold evaluateRules in *.
    destruct (Engine.evaluateRules _ _ (rules targeting) user flagKey src1 n1)
      as [found1 k1].
    destruct (Engine.evaluateRules _ _ (rules targeting) user flagKey src2 n2)
      as [found2 k2].
    simpl in Hr, Hn, Hn2. subst found2 k1 k2.
    unfold effectiveUserId, after_gate. rewrite Hid.
    destruct found1; simpl; auto.
  - unfold evaluateTargeting in *. unfold Engine.evaluateTargeting.
    rewrite Hon. simpl. auto.
Qed.

(** Two users with the same attributes, neither with a usable id, are
    evaluated alike. *)
Lemma evaluateRule_same_attributes (u1 u2 : UserContext)
    (rule : TargetingRule) (src : RandomSource) (n : nat) :
  (forall condition, evaluateCondition condition u1 = evaluateCondition condition u2) ->
  truthy_id u1 = truthy_id u2 ->
  evaluateRule rule u1 flagKey src n = evaluateRule rule u2 flagKey src n.
Proof.
  intros Hc Hid. unfold evaluateRule in *. rewrite !evaluateRule_eq.
  unfold rollout_gate, after_gate. rewrite Hid.
  rewrite (forallb_pointwise _ (fun c => evaluateCondition c u2)) by (intros c; apply Hc).
  reflexivity.
Qed.

Lemma evaluateRules_same_attributes (u1 u2 : UserContext)
    (rules : list TargetingRule) (src : RandomSource) (n : nat) :
  (forall condition, evaluateCondition condition u1 = evaluateCondition condition u2) ->
  truthy_id u1 = truthy_id u2 ->
  evaluateRules rules u1 flagKey src n = evaluateRules rules u2 flagKey src n.
Proof.
  intros Hc Hid. unfold evaluateRules in *. revert n.
  induction rules as [|rule rest IH]; intros n; simpl; [reflexivity|].
  unfold bind.
  pose proof (evaluateRule_same_attributes u1 u2 rule src n Hc Hid) as E.
  unfold evaluateRule in *. rewrite E.
  destruct (Engine.evaluateRule _ _ rule u2 flagKey src n) as [r k].
  destruct (matches r); [reflexivity | apply IH].
Qed.

Lemma evaluateTargeting_same_attributes (u1 u2 : UserContext)
    (targeting : option Targeting) (defaultValue : JsValue)
    (src : RandomSource) (n : nat) :
  (forall condition, evaluateCondition condition u1 = evaluateCondition condition u2) ->
  truthy_id u1 = truthy_id u2 ->
  evaluateTargeting flagKey targeting u1 defaultValue src n
  = evaluateTargeting flagKey targeting u2 defaultValue src n.
Proof.
  intros Hc Hid. destruct targeting as [targeting|]; [|reflexivity].
  destruct (enabled targeting) eqn:Hon.
  - unfold evaluateTargeting in *. rewrite !evaluateTargeting_enabled by exact Hon.
    pose proof (evaluateRules_same_attributes u1 u2 (rules targeting) src n Hc Hid) as E.
    unfold evaluateRules in *. rewrite E.
    unfold effectiveUserId, after_gate. rewrite Hid. reflexivity.
  - unfold evaluateTargeting in *. unfold Engine.evaluateTargeting.
    rewrite Hon. reflexivity.
Qed.
End Identity.

(** ** The bypass, the hash and the rollout test, as specified *)

(** C1.  When targeting is undefined, or its [enabled] switch is false,
    [evaluateTargeting] returns [{enabled: true, value: defaultValue}]
    whatever the rules and the default rule hold, for every flag key, user
    and default value; no draw is made.  Both copies of the engine. *)
Theorem targeting_disabled_bypass `{JsBuiltins}
    (flagKey : JsString) (user : UserContext) (defaultValue : JsValue)
    (rs : list TargetingRule) (d : DefaultRule)
    (src : RandomSource) (n : nat) :
  let disabled := Some {| enabled := false; rules := rs; defaultRule := d |} in
  let plain := ({| flag_enabled := true; flag_value := defaultValue |}, n) in
  DashboardLib.evaluateTargeting flagKey None user defaultValue src n = plain
  /\ DashboardLib.evaluateTargeting flagKey disabled user defaultValue src n = plain
  /\ Part005.evaluateTargeting flagKey None user defaultValue src n = plain
  /\ Part005.evaluateTargeting flagKey disabled user defaultValue src n = plain.
Proof. repeat split. Qed.

(** C4.  [isInRollout] is false for every percentage at most 0 and true
    for every percentage at least 100, for every user id (the empty one
    included) and every flag key.  Both copies of the engine. *)
Theorem isInRollout_outside_0_100
    (userId flagKey : JsString) (percentage : number) :
  (num_le percentage (of_Z 0) = true ->
     DashboardLib.isInRollout userId flagKey percentage = false
     /\ Part005.isInRollout userId flagKey percentage = false)
  /\ (num_ge percentage (of_Z 100) = true ->
        DashboardLib.isInRollout userId flagKey percentage = true
        /\ Part005.isInRollout userId flagKey percentage = true).
Proof.
  split; intros Hp; rewrite isInRollout_agree; split.
  1, 2: apply Part005_isInRollout_le_zero, Hp.
  1, 2: apply Part005_isInRollout_ge_100, Hp.
Qed.

Lemma isInRollout_outside_0_100_witness :
  (DashboardLib.isInRollout [] (js "new-dashboard") (Fin (-5 # 2)) = false
   /\ Part005.isInRollout [] (js "new-dashboard") (Fin (-5 # 2)) = false)
  /\ (DashboardLib.isInRollout [] (js "new-dashboard") (Fin (401 # 4)) = true
      /\ Part005.isInRollout [] (js "new-dashboard") (Fin (401 # 4)) = true).
Proof.
  split.
  - apply (proj1 (isInRollout_outside_0_100 [] (js "new-dashboard") (Fin (-5 # 2)))).
    reflexivity.
  - apply (proj2 (isInRollout_outside_0_100 [] (js "new-dashboard") (Fin (401 # 4)))).
    reflexivity.
Defined.

(** C6, as the code has it.  [hashString] of part_005 returns an integer
    in [0, 100); [hashString] of the dashboard copy returns the raw
    magnitude, an integer in [0, 2^31], of which part_005's value is the
    remainder modulo 100.  Both are total functions of the string, both
    return 0 on the empty string, and on ["test-user-123"] they return 73
    and 1333033973. *)
Theorem hashString_ranges (s : JsString) :
  0 <= Part005.hashString s < 100
  /\ 0 <= DashboardLib.hashString s <= 2 ^ 31
  /\ Part005.hashString s = Z.rem (DashboardLib.hashString s) 100
  /\ Part005.hashString [] = 0
  /\ DashboardLib.hashString [] = 0
  /\ Part005.hashString (js "test-user-123") = 73
  /\ DashboardLib.hashString (js "test-user-123") = 1333033973.
Proof.
  split; [apply Part005_hashString_bounds|].
  split; [apply DashboardLib_hashString_bounds|].
  repeat split; vm_compute; reflexivity.
Qed.

(** C6, against the claim: the dashboard copy's [hashString] leaves
    [0, 100). *)
Lemma dashboard_hashString_not_a_bucket :
  DashboardLib.hashString (js "test-user-123") = 1333033973
  /\ (DashboardLib.hashString (js "test-user-123") <? 100) = false.
Proof. split; vm_compute; reflexivity. Qed.

(** C9.  The two rollout tests agree on every user id, flag key and
    percentage. *)
Theorem isInRollout_implementations_agree
    (userId flagKey : JsString) (percentage : number) :
  DashboardLib.isInRollout userId flagKey percentage
  = Part005.isInRollout userId flagKey percentage.
Proof.
  unfold DashboardLib.isInRollout, Part005.isInRollout.
  destruct (num_strict_eq percentage (of_Z 0)); [reflexivity|].
  destruct (num_strict_eq percentage (of_Z 100)); [reflexivity|].
  cbv zeta. now rewrite hashString_reduced.
Qed.

(** ** Conditions *)

(** In the dashboard copy the [in] operator only ever matches against an
    array. *)
Lemma dashboard_in_needs_array `{JsBuiltins}
    (user : UserContext) (name : JsString) (conditionValue : JsValue) :
  isArray conditionValue = false ->
  DashboardLib.evaluateCondition
    {| attribute := name; operator := op_in; condition_value := conditionValue |}
    user = false.
Proof.
  intros Harr. unfold DashboardLib.evaluateCondition. simpl.
  rewrite Harr. now destruct (strict_equal _ VUndefined).
Qed.

(** In part_005 the [in] operator tests membership in the array, or in
    the trimmed pieces of the comma-separated string. *)
Lemma part005_in_membership `{JsBuiltins}
    (userValue conditionValue : JsValue) :
  userValue <> VUndefined ->
  Part005.evaluateCondition userValue op_in conditionValue
  = match conditionValue with
    | VArr _ elems => array_includes elems userValue
    | _ => array_includes
             (List.map (fun piece => VStr (str_trim piece))
                       (str_split 44 (ToString conditionValue)))
             userValue
    end.
Proof.
  intros Hdef. unfold Part005.evaluateCondition.
  destruct userValue; try contradiction; simpl; now destruct conditionValue.
Qed.

(** C7.  On the condition value ["TR,US,UK"], the [in] operator of
    part_005 holds for the user value ["TR"] and fails for ["DE"], while
    the [in] operator of the dashboard copy fails for ["TR"] as well. *)
Theorem in_operator_comma_separated `{JsBuiltins} :
  Part005.evaluateCondition (VStr (js "TR")) op_in (VStr (js "TR,US,UK")) = true
  /\ Part005.evaluateCondition (VStr (js "DE")) op_in (VStr (js "TR,US,UK")) = false
  /\ Part005.evaluateConditionWithUser country_in_list turkish_user = true
  /\ DashboardLib.evaluateCondition country_in_list turkish_user = false.
Proof. repeat split; vm_compute; reflexivity. Qed.




(** ** Cascading *)

Section Cascade.
Variable evaluateCondition : TargetingCondition -> UserContext -> bool.
Variable isInRollout : JsString -> JsString -> number -> bool.
Hypothesis isInRollout_le_zero : forall userId flagKey p,
  num_le p (of_Z 0) = true -> isInRollout userId flagKey p = false.
Hypothesis isInRollout_ge_100 : forall userId flagKey p,
  num_ge p (of_Z 100) = true -> isInRollout userId flagKey p = true.

Variable user : UserContext.
Variable flagKey : JsString.
Variable src : RandomSource.
Hypothesis src_in_range : source_in_range src.

(** The gate of a rule rolled out to 0% is shut and that of a rule
    rolled out to 100% is open, for users with and without an id. *)
Lemma gate_shut_at_0 (n : nat) :
  rollout_gate isInRollout user flagKey src n (of_Z 0) = false.
Proof.
  unfold rollout_gate. destruct (truthy_id user).
  - now apply isInRollout_le_zero.
  - apply bucket_not_below; [apply src_in_range | reflexivity].
Qed.

Lemma gate_open_at_100 (n : nat) :
  rollout_gate isInRollout user flagKey src n (of_Z 100) = true.
Proof.
  unfold rollout_gate. destruct (truthy_id user).
  - now apply isInRollout_ge_100.
  - apply bucket_below; [apply src_in_range | reflexivity].
Qed.

Lemma cascade_generic (rule1 rule2 : TargetingRule)
    (rest : list TargetingRule) (d : DefaultRule) (defaultValue : JsValue)
    (n : nat) :
  rule_enabled rule1 = true -> rule_enabled rule2 = true ->
  rolloutPercentage rule1 = of_Z 0 -> rolloutPercentage rule2 = of_Z 100 ->
  (forall c, In c (conditions rule1 ++ conditions rule2) ->
             evaluateCondition c user = true) ->
  fst (Engine.evaluateTargeting evaluateCondition isInRollout flagKey
         (Some {| enabled := true; rules := rule1 :: rule2 :: rest;
                  defaultRule := d |})
         user defaultValue src n)
  = {| flag_enabled := true; flag_value := rule_value rule2 |}.
Proof.
  intros Hon1 Hon2 Hp1 Hp2 Hconds.
  assert (Hmiss : rule_misses evaluateCondition isInRollout user flagKey src
                    rule1 n (after_gate user n)).
  { apply miss_rollout; [exact Hon1 | |rewrite Hp1; apply gate_shut_at_0].
    intros c Hc. apply Hconds, in_or_app. now left. }
  rewrite (evaluateTargeting_skip _ _ _ _ _ _ _ _ _ _ _ Hmiss).
  assert (Hall : forallb (fun c => evaluateCondition c user) (conditions rule2) = true).
  { apply forallb_forall. intros c Hc. apply Hconds, in_or_app. now right. }
  rewrite evaluateTargeting_first_hit;
    rewrite evaluateRule_eq, Hon2, Hall, Hp2, gate_open_at_100; reflexivity.
Qed.
End Cascade.

(** ** Rules, cascading and the default rule *)

(** C2.  An enabled rule whose conditions all hold but whose rollout gate
    excludes the user does not match, and the evaluation goes on with the
    rules after it.  In particular, of two enabled rules whose conditions
    hold, the first rolled out to 0% and the second to 100%, the second
    decides: the result is [{enabled: true, value: <its value>}], for a user
    with an id of any kind (and for one without).  Both copies of the
    engine. *)
Theorem cascade_on_rollout_miss `{JsBuiltins}
    (flagKey : JsString) (user : UserContext) (d : DefaultRule)
    (defaultValue : JsValue) (src : RandomSource) (n : nat) :
  let targeting rs := Some {| enabled := true; rules := rs; defaultRule := d |} in
  (forall rule rest,
      rule_enabled rule = true ->
      (forall c, In c (conditions rule) -> DashboardLib.evaluateCondition c user = true) ->
      rollout_gate DashboardLib.isInRollout user flagKey src n
        (rolloutPercentage rule) = false ->
      DashboardLib.evaluateTargeting flagKey (targeting (rule :: rest))
        user defaultValue src n
      = DashboardLib.evaluateTargeting flagKey (targeting rest)
          user defaultValue src (after_gate user n))
  /\ (forall rule rest,
      rule_enabled rule = true ->
      (forall c, In c (conditions rule) -> Part005.evaluateConditionWithUser c user = true) ->
      rollout_gate Part005.isInRollout user flagKey src n
        (rolloutPercentage rule) = false ->
      Part005.evaluateTargeting flagKey (targeting (rule :: rest))
        user defaultValue src n
      = Part005.evaluateTargeting flagKey (targeting rest)
          user defaultValue src (after_gate user n))
  /\ (forall rule1 rule2 rest,
      source_in_range src ->
      rule_enabled rule1 = true -> rule_enabled rule2 = true ->
      rolloutPercentage rule1 = of_Z 0 -> rolloutPercentage rule2 = of_Z 100 ->
      (forall c, In c (conditions rule1 ++ conditions rule2) ->
                 DashboardLib.evaluateCondition c user = true) ->
      fst (DashboardLib.evaluateTargeting flagKey
             (targeting (rule1 :: rule2 :: rest)) user defaultValue src n)
      = {| flag_enabled := true; flag_value := rule_value rule2 |})
  /\ (forall rule1 rule2 rest,
      source_in_range src ->
      rule_enabled rule1 = true -> rule_enabled rule2 = true ->
      rolloutPercentage rule1 = of_Z 0 -> rolloutPercentage rule2 = of_Z 100 ->
      (forall c, In c (conditions rule1 ++ conditions rule2) ->
                 Part005.evaluateConditionWithUser c user = true) ->
      fst (Part005.evaluateTargeting flagKey
             (targeting (rule1 :: rule2 :: rest)) user defaultValue src n)
      = {| flag_enabled := true; flag_value := rule_value rule2 |}).
Proof.
  intros targeting. repeat split.
  - intros rule rest Hon Hconds Hgate.
    apply evaluateTargeting_skip, miss_rollout; assumption.
  - intros rule rest Hon Hconds Hgate.
    apply evaluateTargeting_skip, miss_rollout; assumption.
  - intros rule1 rule2 rest Hsrc Hon1 Hon2 Hp1 Hp2 Hconds.
    apply cascade_generic; try assumption.
    + intros u f p Hp. rewrite isInRollout_agree.
      now apply Part005_isInRollout_le_zero.
    + intros u f p Hp. rewrite isInRollout_agree.
      now apply Part005_isInRollout_ge_100.
  - intros rule1 rule2 rest Hsrc Hon1 Hon2 Hp1 Hp2 Hconds.
    apply cascade_generic; try assumption.
    + apply Part005_isInRollout_le_zero.
    + apply Part005_isInRollout_ge_100.
Qed.

Lemma constant_source_in_range (b : Z) :
  0 <= b < 100 -> source_in_range (constant_source b).
Proof. intros Hb k. exact Hb. Qed.

Lemma cascade_on_rollout_miss_witness :
  let second := {| flag_enabled := true; flag_value := VStr (js "second") |} in
  fst (@DashboardLib.evaluateTargeting integer_builtins (js "new-dashboard")
         (Some cascade) (premium_user (Some (js "user-123")))
         (VBool false) (constant_source 42) 0%nat) = second
  /\ fst (@Part005.evaluateTargeting integer_builtins (js "new-dashboard")
            (Some cascade) (premium_user (Some (js "user-123")))
            (VBool false) (constant_source 42) 0%nat) = second.
Proof.
  intros second.
  pose proof (@cascade_on_rollout_miss integer_builtins (js "new-dashboard")
                (premium_user (Some (js "user-123"))) fallback_rule
                (VBool false) (constant_source 42) 0%nat)
    as (_ & _ & Hdash & Hpart).
  assert (Hsrc : source_in_range (constant_source 42))
    by (apply constant_source_in_range; lia).
  split.
  - apply (Hdash (premium_rule 0 (VStr (js "first")))
                 (everyone_rule 100 (VStr (js "second"))) []);
      try reflexivity; [exact Hsrc|].
    intros c [<- | []]. vm_compute. reflexivity.
  - apply (Hpart (premium_rule 0 (VStr (js "first")))
                 (everyone_rule 100 (VStr (js "second"))) []);
      try reflexivity; [exact Hsrc|].
    intros c [<- | []]. vm_compute. reflexivity.
Defined.

(** C3.  When targeting is enabled and no rule matches (each rule being
    disabled, or failing a condition, or missing its rollout bucket),
    [evaluateTargeting] returns [{enabled: b, value: defaultRule.value}]
    with [b = isInRollout(effectiveUserId, flagKey,
    defaultRule.rolloutPercentage)]: the value is the default rule's, also
    when [b] is false.  Both copies of the engine. *)
Theorem no_match_falls_back_to_default_rule `{JsBuiltins}
    (flagKey : JsString) (targeting : Targeting) (user : UserContext)
    (defaultValue : JsValue) (src : RandomSource) (n n' : nat) :
  enabled targeting = true ->
  (no_rule_matches DashboardLib.evaluateCondition DashboardLib.isInRollout
     user flagKey src (rules targeting) n n' ->
   DashboardLib.evaluateTargeting flagKey (Some targeting) user defaultValue src n
   = ({| flag_enabled :=
           DashboardLib.isInRollout (effectiveUserId user src n') flagKey
             (default_rolloutPercentage (defaultRule targeting));
         flag_value := default_value (defaultRule targeting) |},
      after_gate user n'))
  /\ (no_rule_matches Part005.evaluateConditionWithUser Part005.isInRollout
        user flagKey src (rules targeting) n n' ->
      Part005.evaluateTargeting flagKey (Some targeting) user defaultValue src n
      = ({| flag_enabled :=
              Part005.isInRollout (effectiveUserId user src n') flagKey
                (default_rolloutPercentage (defaultRule targeting));
            flag_value := default_value (defaultRule targeting) |},
         after_gate user n')).
Proof.
  intros Hon. split; intros Hnone; now apply evaluateTargeting_fallback.
Qed.

Lemma no_match_falls_back_to_default_rule_witness :
  let fallback := {| flag_enabled := false; flag_value := VStr (js "fallback") |} in
  @DashboardLib.evaluateTargeting integer_builtins (js "new-dashboard")
    (Some three_misses) free_user (VStr (js "plain")) (constant_source 42) 0%nat
  = (fallback, 0%nat)
  /\ @Part005.evaluateTargeting integer_builtins (js "new-dashboard")
       (Some three_misses) free_user (VStr (js "plain")) (constant_source 42) 0%nat
     = (fallback, 0%nat).
Proof.
  intros fallback.
  pose proof (@no_match_falls_back_to_default_rule integer_builtins
                (js "new-dashboard") three_misses free_user (VStr (js "plain"))
                (constant_source 42) 0%nat 0%nat eq_refl) as [Hdash Hpart].
  split.
  - apply Hdash.
    eapply no_match_cons; [apply miss_disabled; reflexivity|].
    eapply no_match_cons;
      [apply (miss_condition _ _ _ _ _ _ plan_is_premium);
       [reflexivity | left; reflexivity | vm_compute; reflexivity]|].
    eapply no_match_cons; [|apply no_match_nil].
    apply (miss_rollout _ _ free_user); [reflexivity | intros c [] | reflexivity].
  - apply Hpart.
    eapply no_match_cons; [apply miss_disabled; reflexivity|].
    eapply no_match_cons;
      [apply (miss_condition _ _ _ _ _ _ plan_is_premium);
       [reflexivity | left; reflexivity | vm_compute; reflexivity]|].
    eapply no_match_cons; [|apply no_match_nil].
    apply (miss_rollout _ _ free_user); [reflexivity | intros c [] | reflexivity].
Defined.

(** ** Determinism and the anonymous path *)

Lemma truthy_id_nonempty (user : UserContext) (id : JsString) :
  user_id user = Some id -> id <> [] -> truthy_id user = Some id.
Proof.
  unfold truthy_id. intros -> Hid. destruct id; [contradiction | reflexivity].
Qed.

(** C5, as the code has it.  For a user whose id is a non-empty string,
    [evaluateTargeting] returns the same [{enabled, value}] whatever the
    random source yields and however many draws were made before, and it
    makes no draw itself; [isInRollout], a function of its three arguments,
    is what decides.  Both copies of the engine. *)
Theorem evaluation_deterministic_with_id `{JsBuiltins}
    (flagKey : JsString) (targeting : option Targeting) (user : UserContext)
    (defaultValue : JsValue) (id : JsString)
    (src1 src2 : RandomSource) (n1 n2 : nat) :
  user_id user = Some id ->
  id <> [] ->
  (fst (DashboardLib.evaluateTargeting flagKey targeting user defaultValue src1 n1)
   = fst (DashboardLib.evaluateTargeting flagKey targeting user defaultValue src2 n2)
   /\ snd (DashboardLib.evaluateTargeting flagKey targeting user defaultValue src1 n1)
      = n1)
  /\ (fst (Part005.evaluateTargeting flagKey targeting user defaultValue src1 n1)
      = fst (Part005.evaluateTargeting flagKey targeting user defaultValue src2 n2)
      /\ snd (Part005.evaluateTargeting flagKey targeting user defaultValue src1 n1)
         = n1).
Proof.
  intros Hid Hne. pose proof (truthy_id_nonempty user id Hid Hne) as Htruthy.
  split; eapply evaluateTargeting_identified; exact Htruthy.
Qed.

Lemma evaluation_deterministic_with_id_witness :
  let user := {| user_id := Some (js "user-123"); attributes := None |} in
  (fst (@DashboardLib.evaluateTargeting integer_builtins (js "new-dashboard")
          (Some half_rollout) user (VBool false) (constant_source 0) 0%nat)
   = fst (@DashboardLib.evaluateTargeting integer_builtins (js "new-dashboard")
            (Some half_rollout) user (VBool false) (constant_source 99) 7%nat)
   /\ snd (@DashboardLib.evaluateTargeting integer_builtins (js "new-dashboard")
             (Some half_rollout) user (VBool false) (constant_source 0) 0%nat)
      = 0%nat)
  /\ (fst (@Part005.evaluateTargeting integer_builtins (js "new-dashboard")
             (Some half_rollout) user (VBool false) (constant_source 0) 0%nat)
      = fst (@Part005.evaluateTargeting integer_builtins (js "new-dashboard")
               (Some half_rollout) user (VBool false) (constant_source 99) 7%nat)
      /\ snd (@Part005.evaluateTargeting integer_builtins (js "new-dashboard")
                (Some half_rollout) user (VBool false) (constant_source 0) 0%nat)
         = 0%nat).
Proof.
  intros user.
  apply (@evaluation_deterministic_with_id integer_builtins (js "new-dashboard")
           (Some half_rollout) user (VBool false) (js "user-123")).
  - reflexivity.
  - discriminate.
Defined.

(** C5, against the claim: an id that is present but empty.  The same
    flag, targeting, user and default value evaluate to enabled with one
    random source and to disabled with another. *)
Lemma empty_id_is_not_deterministic :
  let user := {| user_id := Some (js ""); attributes := None |} in
  fst (@DashboardLib.evaluateTargeting integer_builtins (js "new-dashboard")
         (Some half_rollout) user (VBool false) (constant_source 0) 0%nat)
  = {| flag_enabled := true; flag_value := VBool true |}
  /\ fst (@DashboardLib.evaluateTargeting integer_builtins (js "new-dashboard")
            (Some half_rollout) user (VBool false) (constant_source 99) 0%nat)
     = {| flag_enabled := false; flag_value := VBool false |}
  /\ fst (@Part005.evaluateTargeting integer_builtins (js "new-dashboard")
            (Some half_rollout) user (VBool false) (constant_source 0) 0%nat)
     = {| flag_enabled := true; flag_value := VBool true |}
  /\ fst (@Part005.evaluateTargeting integer_builtins (js "new-dashboard")
            (Some half_rollout) user (VBool false) (constant_source 99) 0%nat)
     = {| flag_enabled := false; flag_value := VBool false |}.
Proof. repeat split; vm_compute; reflexivity. Qed.

(** C10.  A user whose id is the empty string is evaluated as a user
    without an id, by [evaluateRule] and by [evaluateTargeting].  For such
    a user a rule that is enabled and whose conditions hold matches exactly
    when the bucket of the next draw is below its rollout percentage, and
    an enabled targeting without rules answers with the rollout test of the
    random id ["anon-" ++ draw]: neither reads the hash of the flag key and
    the user's id.  With a percentage above 0 and at most 99 the draws of
    bucket 0 and of bucket 99 decide such a rule differently.  Both copies
    of the engine. *)
Theorem empty_id_takes_anonymous_path `{JsBuiltins}
    (flagKey : JsString) (attrs : option (gmap JsString JsValue))
    (src : RandomSource) (n : nat) :
  let empty := {| user_id := Some []; attributes := attrs |} in
  let absent := {| user_id := None; attributes := attrs |} in
  let decided_by_draw rule s :=
    ({| matches := num_lt (of_Z (draw_bucket (s n))) (rolloutPercentage rule);
        result_value := rule_value rule |}, S n) in
  (forall rule,
      DashboardLib.evaluateRule rule empty flagKey src n
      = DashboardLib.evaluateRule rule absent flagKey src n
      /\ Part005.evaluateRule rule empty flagKey src n
         = Part005.evaluateRule rule absent flagKey src n)
  /\ (forall targeting defaultValue,
      DashboardLib.evaluateTargeting flagKey targeting empty defaultValue src n
      = DashboardLib.evaluateTargeting flagKey targeting absent defaultValue src n
      /\ Part005.evaluateTargeting flagKey targeting empty defaultValue src n
         = Part005.evaluateTargeting flagKey targeting absent defaultValue src n)
  /\ (forall rule,
      rule_enabled rule = true ->
      (forall c, In c (conditions rule) -> DashboardLib.evaluateCondition c empty = true) ->
      DashboardLib.evaluateRule rule empty flagKey src n = decided_by_draw rule src)
  /\ (forall rule,
      rule_enabled rule = true ->
      (forall c, In c (conditions rule) -> Part005.evaluateConditionWithUser c empty = true) ->
      Part005.evaluateRule rule empty flagKey src n = decided_by_draw rule src)
  /\ (forall d defaultValue,
      let targeting := Some {| enabled := true; rules := []; defaultRule := d |} in
      DashboardLib.evaluateTargeting flagKey targeting empty defaultValue src n
      = ({| flag_enabled :=
              DashboardLib.isInRollout (js "anon-" ++ draw_text (src n)) flagKey
                (default_rolloutPercentage d);
            flag_value := default_value d |}, S n)
      /\ Part005.evaluateTargeting flagKey targeting empty defaultValue src n
         = ({| flag_enabled :=
                 Part005.isInRollout (js "anon-" ++ draw_text (src n)) flagKey
                   (default_rolloutPercentage d);
               flag_value := default_value d |}, S n))
  /\ (forall rule,
      rule_enabled rule = true ->
      (forall c, In c (conditions rule) -> DashboardLib.evaluateCondition c empty = true) ->
      num_lt (of_Z 0) (rolloutPercentage rule) = true ->
      num_le (rolloutPercentage rule) (of_Z 99) = true ->
      matches (fst (DashboardLib.evaluateRule rule empty flagKey (constant_source 0) n)) = true
      /\ matches (fst (DashboardLib.evaluateRule rule empty flagKey (constant_source 99) n)) = false)
  /\ (forall rule,
      rule_enabled rule = true ->
      (forall c, In c (conditions rule) -> Part005.evaluateConditionWithUser c empty = true) ->
      num_lt (of_Z 0) (rolloutPercentage rule) = true ->
      num_le (rolloutPercentage rule) (of_Z 99) = true ->
      matches (fst (Part005.evaluateRule rule empty flagKey (constant_source 0) n)) = true
      /\ matches (fst (Part005.evaluateRule rule empty flagKey (constant_source 99) n)) = false).
Proof.
  intros empty absent decided_by_draw.
  assert (Hgate : forall p, num_le p (of_Z 99) = true -> num_lt (of_Z 99) p = false).
  { intros [| |q|]; simpl; try reflexivity; try discriminate.
    intros Hq. now rewrite Hq. }
  repeat apply conj.
  - intros rule. split; apply evaluateRule_same_attributes; reflexivity.
  - intros targeting defaultValue.
    split; apply evaluateTargeting_same_attributes; reflexivity.
  - intros rule Hon Hconds.
    unfold DashboardLib.evaluateRule. rewrite evaluateRule_eq, Hon.
    rewrite (proj2 (forallb_forall _ _) Hconds). reflexivity.
  - intros rule Hon Hconds.
    unfold Part005.evaluateRule. rewrite evaluateRule_eq, Hon.
    rewrite (proj2 (forallb_forall _ _) Hconds). reflexivity.
  - intros d defaultValue targeting. split; reflexivity.
  - intros rule Hon Hconds Hlow Hhigh.
    unfold DashboardLib.evaluateRule.
    rewrite !evaluateRule_eq, Hon, (proj2 (forallb_forall _ _) Hconds).
    cbn [andb fst matches]. unfold rollout_gate.
    cbn [truthy_id user_id empty constant_source draw_bucket].
    rewrite Hlow, (Hgate _ Hhigh). auto.
  - intros rule Hon Hconds Hlow Hhigh.
    unfold Part005.evaluateRule.
    rewrite !evaluateRule_eq, Hon, (proj2 (forallb_forall _ _) Hconds).
    cbn [andb fst matches]. unfold rollout_gate.
    cbn [truthy_id user_id empty constant_source draw_bucket].
    rewrite Hlow, (Hgate _ Hhigh). auto.
Qed.

Lemma empty_id_takes_anonymous_path_witness :
  let empty := {| user_id := Some (js ""); attributes := None |} in
  let rule := everyone_rule 50 (VBool true) in
  (@DashboardLib.evaluateRule integer_builtins rule empty (js "new-dashboard")
     (constant_source 42) 0%nat
   = ({| matches := true; result_value := VBool true |}, 1%nat)
   /\ @Part005.evaluateRule integer_builtins rule empty (js "new-dashboard")
        (constant_source 42) 0%nat
      = ({| matches := true; result_value := VBool true |}, 1%nat))
  /\ (matches (fst (@DashboardLib.evaluateRule integer_builtins rule empty
                      (js "new-dashboard") (constant_source 0) 0%nat)) = true
      /\ matches (fst (@DashboardLib.evaluateRule integer_builtins rule empty
                         (js "new-dashboard") (constant_source 99) 0%nat)) = false).
Proof.
  intros empty rule.
  pose proof (@empty_id_takes_anonymous_path integer_builtins (js "new-dashboard")
                None (constant_source 42) 0%nat)
    as (_ & _ & Hdash & Hpart & _ & Hvaries & _).
  split; [split|].
  - apply (Hdash rule); [reflexivity | intros c []].
  - apply (Hpart rule); [reflexivity | intros c []].
  - apply (Hvaries rule); [reflexivity | intros c [] | reflexivity | reflexivity].
Defined.

(** ** The unit tests, replayed

    The expectations of apps/dashboard/__tests__/lib/targeting.test.ts,
    which is written against the exported functions of part_005. *)

Example test_eq_ne `{JsBuiltins} :
  Part005.evaluateCondition (VStr (js "premium")) op_eq (VStr (js "premium")) = true
  /\ Part005.evaluateCondition (VStr (js "free")) op_eq (VStr (js "premium")) = false
  /\ Part005.evaluateCondition (VStr (js "free")) op_ne (VStr (js "premium")) = true
  /\ Part005.evaluateCondition (VStr (js "premium")) op_ne (VStr (js "premium")) = false.
Proof. repeat split. Qed.

Example test_contains `{JsBuiltins} :
  Part005.evaluateCondition (VStr (js "hello world")) op_contains (VStr (js "world")) = true
  /\ Part005.evaluateCondition (VStr (js "hello")) op_contains (VStr (js "world")) = false.
Proof. repeat split. Qed.

Example test_in_array `{JsBuiltins} :
  let countries := VArr 0 [VStr (js "TR"); VStr (js "US"); VStr (js "UK")] in
  Part005.evaluateCondition (VStr (js "TR")) op_in countries = true
  /\ Part005.evaluateCondition (VStr (js "DE")) op_in countries = false.
Proof. repeat split. Qed.

Example test_numeric `{JsBuiltins} :
  let num z := VNum (of_Z z) in
  Part005.evaluateCondition (num 30) op_gt (num 25) = true
  /\ Part005.evaluateCondition (num 20) op_gt (num 25) = false
  /\ Part005.evaluateCondition (num 20) op_lt (num 25) = true
  /\ Part005.evaluateCondition (num 30) op_lt (num 25) = false
  /\ Part005.evaluateCondition (num 25) op_gte (num 25) = true
  /\ Part005.evaluateCondition (num 20) op_gte (num 25) = false
  /\ Part005.evaluateCondition (num 25) op_lte (num 25) = true
  /\ Part005.evaluateCondition (num 30) op_lte (num 25) = false.
Proof. repeat split. Qed.

Example test_hashString :
  Part005.hashString (js "user-1") = 25
  /\ Part005.hashString (js "user-2") = 24
  /\ Part005.hashString (js "test") = 98
  /\ Part005.hashString (js "flag-abc:user-123") = 85.
Proof. repeat split. Qed.

Example test_isInRollout :
  Part005.isInRollout (js "any-user") (js "any-flag") (of_Z 100) = true
  /\ Part005.isInRollout (js "any-user") (js "any-flag") (of_Z 0) = false
  /\ List.length (List.filter
                    (fun u => Part005.isInRollout u (js "test-flag") (of_Z 50))
                    hundred_users) = 46%nat.
Proof. repeat split; vm_compute; reflexivity. Qed.

Example test_evaluateTargeting `{JsBuiltins} (src : RandomSource) (n : nat) :
  Part005.evaluateTargeting (js "test-flag") (Some mockTargeting)
    (premium_user (Some (js "user-123"))) (VBool false) src n
  = ({| flag_enabled := true; flag_value := VBool true |}, n)
  /\ Part005.evaluateTargeting (js "test-flag") (Some mockTargeting)
       {| user_id := Some (js "user-123");
          attributes := Some {[ js "plan" := VStr (js "free") ]} |}
       (VBool false) src n
     = ({| flag_enabled := false; flag_value := VBool false |}, n).
Proof. split; vm_compute; reflexivity. Qed.

(** * Further properties of the engine *)

(** ** The hash, arithmetically *)

Lemma ToInt32_mod (z : Z) : ToInt32 z mod 2 ^ 32 = z mod 2 ^ 32.
Proof.
  unfold ToInt32. rewrite Zminus_mod_idemp_l. f_equal. lia.
Qed.

Lemma ToInt32_congruent (a b : Z) :
  a mod 2 ^ 32 = b mod 2 ^ 32 -> ToInt32 a = ToInt32 b.
Proof.
  intros Hab. unfold ToInt32.
  rewrite (Zplus_mod a), (Zplus_mod b), Hab. reflexivity.
Qed.

(** One iteration of the loop multiplies by 31 and adds the code unit,
    modulo 2^32. *)
Lemma hash_step_31 (hash char : Z) :
  (let hash := shift_left hash 5 - hash + char in bit_and hash hash)
  = ToInt32 (31 * hash + char).
Proof.
  cbv zeta. rewrite bit_and_self. apply ToInt32_congruent.
  unfold shift_left. change (5 mod 32) with 5. rewrite Z.shiftl_mul_pow2 by lia.
  rewrite Zplus_mod, Zminus_mod, ToInt32_mod.
  rewrite (Zmult_mod (ToInt32 hash)), ToInt32_mod, <- Zmult_mod.
  rewrite <- Zminus_mod, <- Zplus_mod. f_equal. lia.
Qed.

Lemma hash_loop_polynomial (str : JsString) :
  fold_left (fun hash char =>
               let hash := shift_left hash 5 - hash + char in
               bit_and hash hash) str 0
  = ToInt32 (polynomial_hash str).
Proof.
  unfold polynomial_hash.
  induction str as [|c str IH] using rev_ind; [reflexivity|].
  rewrite !fold_left_app. cbn [fold_left]. rewrite IH, hash_step_31.
  apply ToInt32_congruent.
  rewrite Zplus_mod, Zmult_mod, ToInt32_mod, <- Zmult_mod, <- Zplus_mod.
  reflexivity.
Qed.

(** X1.  The bit-level loop of [hashString] computes the polynomial hash
    [h := 31 * h + c] modulo 2^32, read as a signed 32-bit integer: the
    dashboard copy returns its magnitude, part_005 the magnitude modulo
    100. *)
Theorem hashString_polynomial (str : JsString) :
  DashboardLib.hashString str = Z.abs (ToInt32 (polynomial_hash str))
  /\ Part005.hashString str = Z.rem (Z.abs (ToInt32 (polynomial_hash str))) 100.
Proof.
  unfold DashboardLib.hashString, Part005.hashString. cbv zeta.
  now rewrite hash_loop_polynomial.
Qed.

(** ** The rollout test as a bucket comparison *)

Lemma strict_eq_zero_le_zero (p : number) :
  num_strict_eq p (of_Z 0) = true -> num_le p (of_Z 0) = true.
Proof.
  destruct p as [| |q|]; simpl; try discriminate.
  intros H. apply Qeq_bool_iff in H. apply Qle_bool_iff. rewrite H.
  apply Qle_refl.
Qed.

Lemma strict_eq_100_ge_100 (p : number) :
  num_strict_eq p (of_Z 100) = true -> num_ge p (of_Z 100) = true.
Proof.
  destruct p as [| |q|]; simpl; try discriminate.
  intros H. apply Qeq_bool_iff in H. unfold num_ge. simpl.
  apply Qle_bool_iff. rewrite H. apply Qle_refl.
Qed.

Lemma Part005_isInRollout_bucket (userId flagKey : JsString) (p : number) :
  Part005.isInRollout userId flagKey p
  = num_lt (of_Z (Part005.hashString (flagKey ++ js ":" ++ userId))) p.
Proof.
  unfold Part005.isInRollout.
  pose proof (Part005_hashString_bounds (flagKey ++ js ":" ++ userId)) as Hb.
  destruct (num_strict_eq p (of_Z 0)) eqn:E0.
  - symmetry. apply bucket_not_below; [lia|]. now apply strict_eq_zero_le_zero.
  - destruct (num_strict_eq p (of_Z 100)) eqn:E100; [|reflexivity].
    symmetry. apply bucket_below; [lia|]. now apply strict_eq_100_ge_100.
Qed.

(** X2.  [isInRollout] is the comparison of the user's bucket with the
    percentage, for every percentage: the two early returns at 0 and at
    100 never change the answer.  The bucket is [hashString(flagKey + ":"
    + userId)] reduced modulo 100, a number in 0..99.  Both copies. *)
Theorem isInRollout_is_bucket_test
    (userId flagKey : JsString) (percentage : number) :
  let bucket := Part005.hashString (flagKey ++ js ":" ++ userId) in
  0 <= bucket < 100
  /\ bucket = Z.rem (DashboardLib.hashString (flagKey ++ js ":" ++ userId)) 100
  /\ DashboardLib.isInRollout userId flagKey percentage
     = num_lt (of_Z bucket) percentage
  /\ Part005.isInRollout userId flagKey percentage
     = num_lt (of_Z bucket) percentage.
Proof.
  intros bucket. split; [apply Part005_hashString_bounds|].
  split; [reflexivity|].
  rewrite isInRollout_agree. split; apply Part005_isInRollout_bucket.
Qed.

Lemma num_lt_le_trans (a p q : number) :
  num_lt a p = true -> num_le p q = true -> num_lt a q = true.
Proof.
  destruct a as [| |x|], p as [| |y|], q as [| |z|]; simpl;
    try reflexivity; try discriminate.
  intros Hxy Hyz. apply negb_true_iff in Hxy. apply negb_true_iff.
  destruct (Qle_bool z x) eqn:Hzx; [|reflexivity].
  apply Qle_bool_iff in Hyz, Hzx.
  assert (Hyx : Qle_bool y x = true)
    by (apply Qle_bool_iff; eapply Qle_trans; eassumption).
  congruence.
Qed.

Lemma Part005_isInRollout_monotone (userId flagKey : JsString) (p q : number) :
  num_le p q = true ->
  Part005.isInRollout userId flagKey p = true ->
  Part005.isInRollout userId flagKey q = true.
Proof.
  rewrite !Part005_isInRollout_bucket. intros Hpq Hp.
  eapply num_lt_le_trans; eassumption.
Qed.

(** X3.  Raising the percentage never drops a user: a user who is in the
    rollout of a flag at [p] is in it at every [q >= p].  Both copies. *)
Theorem isInRollout_monotone (userId flagKey : JsString) (p q : number) :
  num_le p q = true ->
  (DashboardLib.isInRollout userId flagKey p = true ->
   DashboardLib.isInRollout userId flagKey q = true)
  /\ (Part005.isInRollout userId flagKey p = true ->
      Part005.isInRollout userId flagKey q = true).
Proof.
  intros Hpq. rewrite !isInRollout_agree.
  split; now apply Part005_isInRollout_monotone.
Qed.

Lemma isInRollout_monotone_witness :
  DashboardLib.isInRollout (js "user-123") (js "new-dashboard") (Fin (251 # 10)) = true
  /\ Part005.isInRollout (js "user-123") (js "new-dashboard") (of_Z 60) = true.
Proof.
  split.
  - apply (proj1 (isInRollout_monotone (js "user-123") (js "new-dashboard")
                    (of_Z 25) (Fin (251 # 10)) eq_refl)).
    vm_compute. reflexivity.
  - apply (proj2 (isInRollout_monotone (js "user-123") (js "new-dashboard")
                    (of_Z 25) (of_Z 60) eq_refl)).
    vm_compute. reflexivity.
Defined.

(** ** The rule list *)

Section RuleList.
Variable evaluateCondition : TargetingCondition -> UserContext -> bool.
Variable isInRollout : JsString -> JsString -> number -> bool.
Variable user : UserContext.
Variable flagKey : JsString.
Variable src : RandomSource.

Let evaluateRule := Engine.evaluateRule evaluateCondition isInRollout.
Let evaluateRules := Engine.evaluateRules evaluateCondition isInRollout.
Let evaluateTargeting := Engine.evaluateTargeting evaluateCondition isInRollout.
Let gate := rollout_gate isInRollout user flagKey src.
Let no_match := no_rule_matches evaluateCondition isInRollout user flagKey src.
Let reaches_gate := eligible evaluateCondition user.

Lemma evaluateRule_eligible (rule : TargetingRule) (n : nat) :
  evaluateRule rule user flagKey src n =
  if reaches_gate rule
  then ({| matches := gate n (rolloutPercentage rule);
           result_value := rule_value rule |}, after_gate user n)
  else ({| matches := false; result_value := VUndefined |}, n).
Proof. apply evaluateRule_eq. Qed.

Lemma evaluateRules_cons (rule : TargetingRule) (rest : list TargetingRule)
    (n : nat) :
  evaluateRules (rule :: rest) user flagKey src n =
  if reaches_gate rule
  then if gate n (rolloutPercentage rule)
       then (Some {| flag_enabled := true; flag_value := rule_value rule |},
             after_gate user n)
       else evaluateRules rest user flagKey src (after_gate user n)
  else evaluateRules rest user flagKey src n.
Proof.
  unfold evaluateRules. cbn [Engine.evaluateRules]. unfold bind at 1.
  fold evaluateRule. rewrite evaluateRule_eligible.
  destruct (reaches_gate rule); [|reflexivity].
  cbn [matches result_value]. now destruct (gate n (rolloutPercentage rule)).
Qed.

(** Rules that do not reach their gate can be dropped from the list. *)
Lemma evaluateRules_filter (rules : list TargetingRule) (n : nat) :
  evaluateRules rules user flagKey src n
  = evaluateRules (List.filter reaches_gate rules) user flagKey src n.
Proof.
  revert n. induction rules as [|rule rest IH]; intros n; [reflexivity|].
  cbn [List.filter]. destruct (reaches_gate rule) eqn:E.
  - rewrite !evaluateRules_cons, E.
    destruct (gate n (rolloutPercentage rule)); [reflexivity | apply IH].
  - rewrite evaluateRules_cons, E. apply IH.
Qed.

Lemma evaluateTargeting_filter (targeting : Targeting) (defaultValue : JsValue)
    (n : nat) :
  evaluateTargeting flagKey (Some targeting) user defaultValue src n
  = evaluateTargeting flagKey
      (Some {| enabled := enabled targeting;
               rules := List.filter reaches_gate (rules targeting);
               defaultRule := defaultRule targeting |})
      user defaultValue src n.
Proof.
  destruct (enabled targeting) eqn:Hon.
  - unfold evaluateTargeting.
    rewrite !evaluateTargeting_enabled by (try exact Hon; reflexivity).
    cbn [rules defaultRule]. fold evaluateRules.
    now rewrite <- evaluateRules_filter.
  - unfold evaluateTargeting, Engine.evaluateTargeting.
    cbn [enabled]. now rewrite Hon.
Qed.

(** After rules that miss, the first rule whose gate opens decides. *)
Lemma evaluateRules_first_match (before : list TargetingRule)
    (rule : TargetingRule) (after : list TargetingRule) (n n' : nat) :
  no_match before n n' ->
  reaches_gate rule = true ->
  gate n' (rolloutPercentage rule) = true ->
  evaluateRules (before ++ rule :: after) user flagKey src n
  = (Some {| flag_enabled := true; flag_value := rule_value rule |},
     after_gate user n').
Proof.
  intros Hnone Hreach Hgate.
  induction Hnone as [n | r rest n n' n'' Hmiss _ IH].
  - cbn [app]. now rewrite evaluateRules_cons, Hreach, Hgate.
  - cbn [app]. unfold evaluateRules.
    rewrite (evaluateRules_miss _ _ _ _ _ _ _ _ _ Hmiss). now apply IH.
Qed.

(** What the loop answers with comes from a rule of the list that
    reached its gate. *)
Lemma evaluateRules_some_inv (rules : list TargetingRule)
    (result : EvaluationResult) (n n' : nat) :
  evaluateRules rules user flagKey src n = (Some result, n') ->
  exists rule, In rule rules /\ reaches_gate rule = true
               /\ result = {| flag_enabled := true;
                              flag_value := rule_value rule |}.
Proof.
  revert n. induction rules as [|rule rest IH]; intros n; [discriminate|].
  rewrite evaluateRules_cons.
  destruct (reaches_gate rule) eqn:E.
  - destruct (gate n (rolloutPercentage rule)).
    + intros [= <- _]. exists rule. repeat split; auto. now left.
    + intros H. destruct (IH _ H) as (r & Hin & Hr & Hres).
      exists r. repeat split; auto. now right.
  - intros H. destruct (IH _ H) as (r & Hin & Hr & Hres).
    exists r. repeat split; auto. now right.
Qed.

(** The loop takes at most one draw for each rule that reaches its gate. *)
Lemma evaluateRules_draws (rules : list TargetingRule) (n : nat) :
  (n <= snd (evaluateRules rules user flagKey src n)
   <= n + length (List.filter reaches_gate rules))%nat.
Proof.
  revert n. induction rules as [|rule rest IH]; intros n.
  - cbn. lia.
  - rewrite evaluateRules_cons. cbn [List.filter].
    destruct (reaches_gate rule).
    + assert (Hstep : (n <= after_gate user n <= S n)%nat)
        by (unfold after_gate; destruct (truthy_id user); lia).
      destruct (gate n (rolloutPercentage rule)); cbn [snd length].
      * lia.
      * specialize (IH (after_gate user n)). lia.
    + specialize (IH n). lia.
Qed.

Lemma evaluateTargeting_draws (targeting : option Targeting)
    (defaultValue : JsValue) (n : nat) :
  (n <= snd (evaluateTargeting flagKey targeting user defaultValue src n)
   <= n + match targeting with
          | Some t => length (List.filter reaches_gate (rules t)) + 1
          | None => 0
          end)%nat.
Proof.
  destruct targeting as [t|]; [|cbn; lia].
  destruct (enabled t) eqn:Hon.
  - unfold evaluateTargeting. rewrite evaluateTargeting_enabled by exact Hon.
    pose proof (evaluateRules_draws (rules t) n) as Hd. unfold evaluateRules in Hd.
    destruct (Engine.evaluateRules _ _ (rules t) user flagKey src n)
      as [[result|] n']; cbn [snd] in *; [lia|].
    unfold after_gate. destruct (truthy_id user); lia.
  - unfold evaluateTargeting, Engine.evaluateTargeting. rewrite Hon. cbn. lia.
Qed.

(** The three outcomes of an evaluation. *)
Lemma evaluateTargeting_outcomes (targeting : option Targeting)
    (defaultValue : JsValue) (n : nat) :
  let r := fst (evaluateTargeting flagKey targeting user defaultValue src n) in
  (r = {| flag_enabled := true; flag_value := defaultValue |}
   /\ (targeting = None \/ exists t, targeting = Some t /\ enabled t = false))
  \/ (exists t rule,
        targeting = Some t /\ enabled t = true
        /\ In rule (rules t) /\ reaches_gate rule = true
        /\ r = {| flag_enabled := true; flag_value := rule_value rule |})
  \/ (exists t n',
        targeting = Some t /\ enabled t = true
        /\ no_match (rules t) n n'
        /\ r = {| flag_enabled :=
                    isInRollout (effectiveUserId user src n') flagKey
                      (default_rolloutPercentage (defaultRule t));
                  flag_value := default_value (defaultRule t) |}).
Proof.
  intros r. subst r. destruct targeting as [t|]; [|left; split; auto].
  destruct (enabled t) eqn:Hon.
  - right. unfold evaluateTargeting. rewrite evaluateTargeting_enabled by exact Hon.
    destruct (Engine.evaluateRules _ _ (rules t) user flagKey src n)
      as [[result|] n'] eqn:E.
    + left. destruct (evaluateRules_some_inv _ _ _ _ E) as (rule & Hin & Hr & ->).
      exists t, rule. auto.
    + right. exists t, n'. repeat split; auto.
      now apply evaluateRules_none_inv.
  - left. unfold evaluateTargeting, Engine.evaluateTargeting. rewrite Hon.
    split; [reflexivity|]. right. exists t. auto.
Qed.
End RuleList.

(** X4.  Rules that are disabled, or that have a condition the user
    fails, can be deleted from a targeting without changing any
    evaluation: neither the result nor the draws taken depend on them,
    whatever their rollout percentage and value.  Both copies. *)
Theorem ineligible_rules_are_inert `{JsBuiltins}
    (flagKey : JsString) (targeting : Targeting) (user : UserContext)
    (defaultValue : JsValue) (src : RandomSource) (n : nat) :
  let pruned evaluateCondition :=
    Some {| enabled := enabled targeting;
            rules := List.filter (eligible evaluateCondition user) (rules targeting);
            defaultRule := defaultRule targeting |} in
  DashboardLib.evaluateTargeting flagKey (Some targeting) user defaultValue src n
  = DashboardLib.evaluateTargeting flagKey
      (pruned DashboardLib.evaluateCondition) user defaultValue src n
  /\ Part005.evaluateTargeting flagKey (Some targeting) user defaultValue src n
     = Part005.evaluateTargeting flagKey
         (pruned Part005.evaluateConditionWithUser) user defaultValue src n.
Proof. intros pruned. split; apply evaluateTargeting_filter. Qed.

(** X5.  First match wins.  When the rules before a rule all miss, and
    that rule is enabled, has all its conditions met and its rollout gate
    open, the result is [{enabled: true, value: <that rule's value>}]
    whatever the rules after it and the default rule are.  Both copies. *)
Theorem first_match_wins `{JsBuiltins}
    (flagKey : JsString) (user : UserContext)
    (before : list TargetingRule) (rule : TargetingRule)
    (after : list TargetingRule) (d : DefaultRule) (defaultValue : JsValue)
    (src : RandomSource) (n n' : nat) :
  let targeting :=
    Some {| enabled := true; rules := before ++ rule :: after; defaultRule := d |} in
  let won := ({| flag_enabled := true; flag_value := rule_value rule |},
              after_gate user n') in
  (no_rule_matches DashboardLib.evaluateCondition DashboardLib.isInRollout
     user flagKey src before n n' ->
   eligible DashboardLib.evaluateCondition user rule = true ->
   rollout_gate DashboardLib.isInRollout user flagKey src n'
     (rolloutPercentage rule) = true ->
   DashboardLib.evaluateTargeting flagKey targeting user defaultValue src n = won)
  /\ (no_rule_matches Part005.evaluateConditionWithUser Part005.isInRollout
        user flagKey src before n n' ->
      eligible Part005.evaluateConditionWithUser user rule = true ->
      rollout_gate Part005.isInRollout user flagKey src n'
        (rolloutPercentage rule) = true ->
      Part005.evaluateTargeting flagKey targeting user defaultValue src n = won).
Proof.
  intros targeting won. subst targeting won. split; intros Hnone Hreach Hgate.
  - unfold DashboardLib.evaluateTargeting.
    rewrite evaluateTargeting_enabled by reflexivity. cbn [rules].
    now rewrite (evaluateRules_first_match _ _ _ _ _ _ _ _ _ _ Hnone Hreach Hgate).
  - unfold Part005.evaluateTargeting.
    rewrite evaluateTargeting_enabled by reflexivity. cbn [rules].
    now rewrite (evaluateRules_first_match _ _ _ _ _ _ _ _ _ _ Hnone Hreach Hgate).
Qed.

Lemma first_match_wins_witness :
  let targeting :=
    Some {| enabled := true;
            rules := [premium_rule 100 (VStr (js "premium"));
                      everyone_rule 100 (VStr (js "everyone"));
                      everyone_rule 100 (VStr (js "late"))];
            defaultRule := fallback_rule |} in
  let won := ({| flag_enabled := true; flag_value := VStr (js "everyone") |}, 0%nat) in
  @DashboardLib.evaluateTargeting integer_builtins (js "new-dashboard")
    targeting free_user (VBool false) (constant_source 42) 0%nat = won
  /\ @Part005.evaluateTargeting integer_builtins (js "new-dashboard")
       targeting free_user (VBool false) (constant_source 42) 0%nat = won.
Proof.
  intros targeting won.
  pose proof (@first_match_wins integer_builtins (js "new-dashboard") free_user
                [premium_rule 100 (VStr (js "premium"))]
                (everyone_rule 100 (VStr (js "everyone")))
                [everyone_rule 100 (VStr (js "late"))]
                fallback_rule (VBool false) (constant_source 42) 0%nat 0%nat)
    as [Hdash Hpart].
  split.
  - apply Hdash; [|reflexivity|reflexivity].
    eapply no_match_cons; [|apply no_match_nil].
    apply (miss_condition _ _ _ _ _ _ plan_is_premium);
      [reflexivity | left; reflexivity | vm_compute; reflexivity].
  - apply Hpart; [|reflexivity|reflexivity].
    eapply no_match_cons; [|apply no_match_nil].
    apply (miss_condition _ _ _ _ _ _ plan_is_premium);
      [reflexivity | left; reflexivity | vm_compute; reflexivity].
Defined.

(** X6.  The outcomes of an evaluation are three, and no other: the
    caller's default value with [enabled: true] (targeting absent or
    switched off); the value of a rule of the list that is enabled and has
    its conditions met, with [enabled: true]; or, no rule having matched,
    the default rule's value with the default rule's rollout test.  So a
    result with [enabled: false] always carries [defaultRule.value].  Both
    copies. *)
Theorem evaluation_outcomes `{JsBuiltins}
    (flagKey : JsString) (targeting : option Targeting) (user : UserContext)
    (defaultValue : JsValue) (src : RandomSource) (n : nat) :
  let outcome evaluateCondition isInRollout (r : EvaluationResult) :=
    (r = {| flag_enabled := true; flag_value := defaultValue |}
     /\ (targeting = None \/ exists t, targeting = Some t /\ enabled t = false))
    \/ (exists t rule,
          targeting = Some t /\ enabled t = true
          /\ In rule (rules t) /\ eligible evaluateCondition user rule = true
          /\ r = {| flag_enabled := true; flag_value := rule_value rule |})
    \/ (exists t n',
          targeting = Some t /\ enabled t = true
          /\ no_rule_matches evaluateCondition isInRollout user flagKey src
               (rules t) n n'
          /\ r = {| flag_enabled :=
                      isInRollout (effectiveUserId user src n') flagKey
                        (default_rolloutPercentage (defaultRule t));
                    flag_value := default_value (defaultRule t) |}) in
  outcome DashboardLib.evaluateCondition DashboardLib.isInRollout
    (fst (DashboardLib.evaluateTargeting flagKey targeting user defaultValue src n))
  /\ outcome Part005.evaluateConditionWithUser Part005.isInRollout
       (fst (Part005.evaluateTargeting flagKey targeting user defaultValue src n)).
Proof. intros outcome. split; apply evaluateTargeting_outcomes. Qed.

(** X7.  An evaluation calls [Math.random()] at most once for each rule
    that is enabled and has its conditions met, and once more for the
    default rule; it calls it not at all when targeting is absent.  Both
    copies. *)
Theorem draws_are_bounded `{JsBuiltins}
    (flagKey : JsString) (targeting : option Targeting) (user : UserContext)
    (defaultValue : JsValue) (src : RandomSource) (n : nat) :
  let bound evaluateCondition :=
    match targeting with
    | Some t => length (List.filter (eligible evaluateCondition user) (rules t)) + 1
    | None => 0
    end%nat in
  (n <= snd (DashboardLib.evaluateTargeting flagKey targeting user defaultValue src n)
   <= n + bound DashboardLib.evaluateCondition)%nat
  /\ (n <= snd (Part005.evaluateTargeting flagKey targeting user defaultValue src n)
      <= n + bound Part005.evaluateConditionWithUser)%nat.
Proof. intros bound. split; apply evaluateTargeting_draws. Qed.

(** ** Staged rollouts and the constructors *)

Section Staged.
Variable evaluateCondition : TargetingCondition -> UserContext -> bool.
Variable isInRollout : JsString -> JsString -> number -> bool.
Hypothesis isInRollout_grows : forall userId flagKey p q,
  num_le p q = true ->
  isInRollout userId flagKey p = true -> isInRollout userId flagKey q = true.
Hypothesis isInRollout_le_zero : forall userId flagKey p,
  num_le p (of_Z 0) = true -> isInRollout userId flagKey p = false.
Hypothesis isInRollout_ge_100 : forall userId flagKey p,
  num_ge p (of_Z 100) = true -> isInRollout userId flagKey p = true.

Variable user : UserContext.
Variable flagKey : JsString.
Variable src : RandomSource.

Let evaluateRules := Engine.evaluateRules evaluateCondition isInRollout.
Let evaluateTargeting := Engine.evaluateTargeting evaluateCondition isInRollout.

(** A rule whose gate is shut for a user with an id can be dropped from
    anywhere in the list. *)
Lemma evaluateRules_drop_shut (id : JsString) (middle : list TargetingRule)
    (rule : TargetingRule) (rest : list TargetingRule) (n : nat) :
  truthy_id user = Some id ->
  isInRollout id flagKey (rolloutPercentage rule) = false ->
  evaluateRules (middle ++ rule :: rest) user flagKey src n
  = evaluateRules (middle ++ rest) user flagKey src n.
Proof.
  intros Hid Hshut. revert n.
  induction middle as [|r middle IH]; intros n; cbn [app].
  - unfold evaluateRules. rewrite evaluateRules_cons.
    unfold rollout_gate, after_gate. rewrite Hid, Hshut.
    now destruct (eligible evaluateCondition user rule).
  - unfold evaluateRules in *. rewrite !evaluateRules_cons.
    destruct (eligible evaluateCondition user r); [|apply IH].
    destruct (rollout_gate isInRollout user flagKey src n (rolloutPercentage r));
      [reflexivity | apply IH].
Qed.

(** Two lists that the loop treats alike are still treated alike behind
    a common prefix. *)
Lemma evaluateRules_prefix (before rules1 rules2 : list TargetingRule) :
  (forall n, evaluateRules rules1 user flagKey src n
             = evaluateRules rules2 user flagKey src n) ->
  forall n, evaluateRules (before ++ rules1) user flagKey src n
            = evaluateRules (before ++ rules2) user flagKey src n.
Proof.
  intros Hsame. induction before as [|r before IH]; intros n; cbn [app].
  - apply Hsame.
  - unfold evaluateRules in *. rewrite !evaluateRules_cons.
    destruct (eligible evaluateCondition user r); [|apply IH].
    destruct (rollout_gate isInRollout user flagKey src n (rolloutPercentage r));
      [reflexivity | apply IH].
Qed.

Lemma staged_generic (id : JsString) (before : list TargetingRule)
    (rule1 : TargetingRule) (middle : list TargetingRule)
    (rule2 : TargetingRule) (rest : list TargetingRule) (d : DefaultRule)
    (defaultValue : JsValue) (n : nat) :
  truthy_id user = Some id ->
  eligible evaluateCondition user rule1 = true ->
  num_le (rolloutPercentage rule2) (rolloutPercentage rule1) = true ->
  evaluateTargeting flagKey
    (Some {| enabled := true;
             rules := before ++ rule1 :: middle ++ rule2 :: rest;
             defaultRule := d |}) user defaultValue src n
  = evaluateTargeting flagKey
      (Some {| enabled := true;
               rules := before ++ rule1 :: middle ++ rest;
               defaultRule := d |}) user defaultValue src n.
Proof.
  intros Hid Hreach Hle.
  assert (Htail : forall k,
             evaluateRules (rule1 :: middle ++ rule2 :: rest) user flagKey src k
             = evaluateRules (rule1 :: middle ++ rest) user flagKey src k).
  { intros k. unfold evaluateRules. rewrite !evaluateRules_cons, Hreach.
    unfold rollout_gate, after_gate. rewrite Hid.
    destruct (isInRollout id flagKey (rolloutPercentage rule1)) eqn:Hgate1;
      [reflexivity|].
    assert (Hshut : isInRollout id flagKey (rolloutPercentage rule2) = false).
    { destruct (isInRollout id flagKey (rolloutPercentage rule2)) eqn:E;
        [|reflexivity].
      rewrite (isInRollout_grows _ _ _ _ Hle E) in Hgate1. discriminate. }
    fold evaluateRules.
    now rewrite (evaluateRules_drop_shut id middle rule2 rest _ Hid Hshut). }
  unfold evaluateTargeting.
  rewrite !evaluateTargeting_enabled by reflexivity. cbn [rules defaultRule].
  fold evaluateRules. now rewrite (evaluateRules_prefix before _ _ Htail n).
Qed.

Hypothesis src_in_range : source_in_range src.

(** A targeting made of one rule at 100% and a default rule at 0%
    answers with the rule's conditions alone. *)
Lemma all_or_nothing_generic (rule : TargetingRule) (d : DefaultRule)
    (defaultValue : JsValue) (n : nat) :
  rule_enabled rule = true ->
  rolloutPercentage rule = of_Z 100 ->
  default_rolloutPercentage d = of_Z 0 ->
  fst (evaluateTargeting flagKey
         (Some {| enabled := true; rules := [rule]; defaultRule := d |})
         user defaultValue src n)
  = if forallb (fun c => evaluateCondition c user) (conditions rule)
    then {| flag_enabled := true; flag_value := rule_value rule |}
    else {| flag_enabled := false; flag_value := default_value d |}.
Proof.
  intros Hon H100 H0. unfold evaluateTargeting.
  rewrite evaluateTargeting_enabled by reflexivity. cbn [rules defaultRule].
  rewrite evaluateRules_cons. unfold eligible. rewrite Hon, H100, H0. cbn [andb].
  destruct (forallb _ (conditions rule)).
  - now rewrite (gate_open_at_100 isInRollout isInRollout_ge_100 _ _ _ src_in_range).
  - cbn. now rewrite isInRollout_le_zero.
Qed.
End Staged.

Lemma DashboardLib_isInRollout_le_zero (userId flagKey : JsString) (p : number) :
  num_le p (of_Z 0) = true -> DashboardLib.isInRollout userId flagKey p = false.
Proof. rewrite isInRollout_agree. apply Part005_isInRollout_le_zero. Qed.

Lemma DashboardLib_isInRollout_ge_100 (userId flagKey : JsString) (p : number) :
  num_ge p (of_Z 100) = true -> DashboardLib.isInRollout userId flagKey p = true.
Proof. rewrite isInRollout_agree. apply Part005_isInRollout_ge_100. Qed.

Lemma DashboardLib_isInRollout_monotone (userId flagKey : JsString) (p q : number) :
  num_le p q = true ->
  DashboardLib.isInRollout userId flagKey p = true ->
  DashboardLib.isInRollout userId flagKey q = true.
Proof. rewrite !isInRollout_agree. apply Part005_isInRollout_monotone. Qed.

(** X8.  For a user with a non-empty id every rule of a flag is tested
    against the same bucket.  So behind a rule that is enabled and whose
    conditions the user meets, wherever that rule stands in the list, a
    later rule with a rollout percentage no greater is dead: deleting it
    changes no evaluation, whatever its conditions and value.  Both
    copies. *)
Theorem later_rule_with_smaller_rollout_is_dead `{JsBuiltins}
    (flagKey : JsString) (user : UserContext) (id : JsString)
    (before : list TargetingRule) (rule1 : TargetingRule)
    (middle : list TargetingRule) (rule2 : TargetingRule)
    (rest : list TargetingRule) (d : DefaultRule) (defaultValue : JsValue)
    (src : RandomSource) (n : nat) :
  let targeting rs := Some {| enabled := true; rules := rs; defaultRule := d |} in
  user_id user = Some id ->
  id <> [] ->
  num_le (rolloutPercentage rule2) (rolloutPercentage rule1) = true ->
  (eligible DashboardLib.evaluateCondition user rule1 = true ->
   DashboardLib.evaluateTargeting flagKey
     (targeting (before ++ rule1 :: middle ++ rule2 :: rest))
     user defaultValue src n
   = DashboardLib.evaluateTargeting flagKey
       (targeting (before ++ rule1 :: middle ++ rest)) user defaultValue src n)
  /\ (eligible Part005.evaluateConditionWithUser user rule1 = true ->
      Part005.evaluateTargeting flagKey
        (targeting (before ++ rule1 :: middle ++ rule2 :: rest))
        user defaultValue src n
      = Part005.evaluateTargeting flagKey
          (targeting (before ++ rule1 :: middle ++ rest)) user defaultValue src n).
Proof.
  intros targeting Hid Hne Hle.
  pose proof (truthy_id_nonempty user id Hid Hne) as Htruthy.
  split; intros Hreach.
  - eapply staged_generic; eauto. apply DashboardLib_isInRollout_monotone.
  - eapply staged_generic; eauto. apply Part005_isInRollout_monotone.
Qed.

Lemma later_rule_with_smaller_rollout_is_dead_witness :
  let user := {| user_id := Some (js "user-1"); attributes := None |} in
  let targeting rs :=
    Some {| enabled := true; rules := rs; defaultRule := fallback_rule |} in
  @DashboardLib.evaluateTargeting integer_builtins (js "new-dashboard")
    (targeting [everyone_rule 10 (VStr (js "tenth"));
                everyone_rule 50 (VStr (js "half"));
                everyone_rule 25 (VStr (js "quarter"))])
    user (VBool false) (constant_source 42) 0%nat
  = @DashboardLib.evaluateTargeting integer_builtins (js "new-dashboard")
      (targeting [everyone_rule 10 (VStr (js "tenth"));
                  everyone_rule 50 (VStr (js "half"))])
      user (VBool false) (constant_source 42) 0%nat
  /\ @Part005.evaluateTargeting integer_builtins (js "new-dashboard")
       (targeting [everyone_rule 10 (VStr (js "tenth"));
                   everyone_rule 50 (VStr (js "half"));
                   everyone_rule 25 (VStr (js "quarter"))])
       user (VBool false) (constant_source 42) 0%nat
     = @Part005.evaluateTargeting integer_builtins (js "new-dashboard")
         (targeting [everyone_rule 10 (VStr (js "tenth"));
                     everyone_rule 50 (VStr (js "half"))])
         user (VBool false) (constant_source 42) 0%nat.
Proof.
  intros user targeting.
  pose proof (@later_rule_with_smaller_rollout_is_dead integer_builtins
                (js "new-dashboard") user (js "user-1")
                [everyone_rule 10 (VStr (js "tenth"))]
                (everyone_rule 50 (VStr (js "half"))) []
                (everyone_rule 25 (VStr (js "quarter"))) []
                fallback_rule (VBool false) (constant_source 42) 0%nat
                eq_refl ltac:(discriminate) eq_refl) as [Hdash Hpart].
  split; [apply Hdash | apply Hpart]; reflexivity.
Defined.

(** X9.  A targeting built by [createPercentageRollout(p, v)] evaluates
    to [{enabled: isInRollout(id, flagKey, p), value: v}], [id] being the
    user's id or the random ["anon-..."] one: the value is [v] also when the
    user is outside the rollout, and the caller's default value is never
    returned.  At [p >= 100] every user is enabled, at [p <= 0] none.  Both
    copies. *)
Theorem percentage_rollout_evaluation `{JsBuiltins}
    (flagKey : JsString) (p : number) (v : JsValue) (user : UserContext)
    (defaultValue : JsValue) (src : RandomSource) (n : nat) :
  let dash := DashboardLib.evaluateTargeting flagKey
                (Some (createPercentageRollout p v)) user defaultValue src n in
  let part := Part005.evaluateTargeting flagKey
                (Some (createPercentageRollout p v)) user defaultValue src n in
  let tested := Part005.isInRollout (effectiveUserId user src n) flagKey p in
  dash = ({| flag_enabled := tested; flag_value := v |}, after_gate user n)
  /\ part = ({| flag_enabled := tested; flag_value := v |}, after_gate user n)
  /\ (num_ge p (of_Z 100) = true -> tested = true)
  /\ (num_le p (of_Z 0) = true -> tested = false).
Proof.
  intros dash part tested. subst dash part tested.
  unfold DashboardLib.evaluateTargeting, Part005.evaluateTargeting.
  rewrite !evaluateTargeting_enabled by reflexivity. cbn.
  rewrite isInRollout_agree. repeat split.
  - apply Part005_isInRollout_ge_100.
  - apply Part005_isInRollout_le_zero.
Qed.

Lemma percentage_rollout_evaluation_witness :
  Part005.isInRollout
    (effectiveUserId {| user_id := None; attributes := None |} (constant_source 7) 0)
    (js "new-dashboard") (Fin (250 # 2)) = true
  /\ Part005.isInRollout
       (effectiveUserId {| user_id := None; attributes := None |} (constant_source 7) 0)
       (js "new-dashboard") (Fin (-1 # 3)) = false.
Proof.
  split.
  - apply (@percentage_rollout_evaluation integer_builtins (js "new-dashboard")
             (Fin (250 # 2)) (VBool true) {| user_id := None; attributes := None |}
             (VBool false) (constant_source 7) 0%nat).
    reflexivity.
  - apply (@percentage_rollout_evaluation integer_builtins (js "new-dashboard")
             (Fin (-1 # 3)) (VBool true) {| user_id := None; attributes := None |}
             (VBool false) (constant_source 7) 0%nat).
    reflexivity.
Defined.

(** X10.  A targeting built by [createAttributeTargeting(attribute,
    operator, value, targetValue)] evaluates to [{enabled: true, value:
    targetValue}] when the condition holds for the user and to [{enabled:
    false, value: false}] when it does not, for users with and without an
    id: the hash and the random bucket (any of 0..99) have no say.  Both
    copies. *)
Theorem attribute_targeting_evaluation `{JsBuiltins}
    (flagKey attribute_name : JsString) (op : Operator)
    (value targetValue : JsValue) (user : UserContext)
    (defaultValue : JsValue) (src : RandomSource) (n : nat) :
  let condition :=
    {| attribute := attribute_name; operator := op; condition_value := value |} in
  let targeting := Some (createAttributeTargeting attribute_name op value targetValue) in
  let on := {| flag_enabled := true; flag_value := targetValue |} in
  let off := {| flag_enabled := false; flag_value := VBool false |} in
  source_in_range src ->
  fst (DashboardLib.evaluateTargeting flagKey targeting user defaultValue src n)
  = (if DashboardLib.evaluateCondition condition user then on else off)
  /\ fst (Part005.evaluateTargeting flagKey targeting user defaultValue src n)
     = (if Part005.evaluateConditionWithUser condition user then on else off).
Proof.
  intros condition targeting on off Hsrc. subst targeting.
  unfold createAttributeTargeting. split.
  - unfold DashboardLib.evaluateTargeting.
    rewrite (all_or_nothing_generic _ _ DashboardLib_isInRollout_le_zero
               DashboardLib_isInRollout_ge_100 _ _ _ Hsrc) by reflexivity.
    cbn [conditions forallb rule_value default_value]. fold condition.
    now destruct (DashboardLib.evaluateCondition condition user).
  - unfold Part005.evaluateTargeting.
    rewrite (all_or_nothing_generic _ _ Part005_isInRollout_le_zero
               Part005_isInRollout_ge_100 _ _ _ Hsrc) by reflexivity.
    cbn [conditions forallb rule_value default_value]. fold condition.
    now destruct (Part005.evaluateConditionWithUser condition user).
Qed.

Lemma attribute_targeting_evaluation_witness :
  let targeting :=
    Some (@createAttributeTargeting integer_builtins (js "plan") op_eq
            (VStr (js "premium")) (VStr (js "gold"))) in
  fst (@DashboardLib.evaluateTargeting integer_builtins (js "new-dashboard")
         targeting (premium_user None) (VBool false) (constant_source 99) 0%nat)
  = {| flag_enabled := true; flag_value := VStr (js "gold") |}
  /\ fst (@Part005.evaluateTargeting integer_builtins (js "new-dashboard")
            targeting free_user (VBool false) (constant_source 99) 0%nat)
     = {| flag_enabled := false; flag_value := VBool false |}.
Proof.
  intros targeting.
  assert (Hsrc : source_in_range (constant_source 99))
    by (apply constant_source_in_range; lia).
  split.
  - apply (proj1 (@attribute_targeting_evaluation integer_builtins
                    (js "new-dashboard") (js "plan") op_eq (VStr (js "premium"))
                    (VStr (js "gold")) (premium_user None) (VBool false)
                    (constant_source 99) 0%nat Hsrc)).
  - apply (proj2 (@attribute_targeting_evaluation integer_builtins
                    (js "new-dashboard") (js "plan") op_eq (VStr (js "premium"))
                    (VStr (js "gold")) free_user (VBool false)
                    (constant_source 99) 0%nat Hsrc)).
Defined.

(** ** Two evaluations side by side *)

Section TwoRuns.
Variable evaluateCondition1 evaluateCondition2
  : TargetingCondition -> UserContext -> bool.
Variable isInRollout1 isInRollout2 : JsString -> JsString -> number -> bool.
Hypothesis same_rollout : forall userId flagKey p,
  isInRollout1 userId flagKey p = isInRollout2 userId flagKey p.

Variable user1 user2 : UserContext.
Hypothesis same_id : truthy_id user1 = truthy_id user2.

Variable flagKey : JsString.
Variable src : RandomSource.

(** The conditions of the rules are answered alike in both runs. *)
Let same_answers (rules : list TargetingRule) : Prop :=
  forall rule, In rule rules ->
  forall condition, In condition (conditions rule) ->
    evaluateCondition1 condition user1 = evaluateCondition2 condition user2.

Lemma same_answers_eligible (rules : list TargetingRule) (rule : TargetingRule) :
  same_answers rules -> In rule rules ->
  eligible evaluateCondition1 user1 rule = eligible evaluateCondition2 user2 rule.
Proof.
  intros Hsame Hin. unfold eligible. f_equal.
  specialize (Hsame rule Hin).
  induction (conditions rule) as [|c cs IH]; [reflexivity|].
  cbn [forallb]. rewrite (Hsame c) by now left.
  f_equal. apply IH. intros c' Hc'. apply Hsame. now right.
Qed.

Lemma evaluateRules_two_runs (rules : list TargetingRule) (n : nat) :
  same_answers rules ->
  Engine.evaluateRules evaluateCondition1 isInRollout1 rules user1 flagKey src n
  = Engine.evaluateRules evaluateCondition2 isInRollout2 rules user2 flagKey src n.
Proof.
  revert n. induction rules as [|rule rest IH]; intros n Hsame; [reflexivity|].
  rewrite !evaluateRules_cons.
  rewrite (same_answers_eligible (rule :: rest) rule Hsame) by now left.
  assert (Hrest : same_answers rest)
    by (intros r Hr; apply Hsame; now right).
  unfold rollout_gate, after_gate. rewrite same_id.
  destruct (eligible evaluateCondition2 user2 rule); [|now apply IH].
  destruct (truthy_id user2) as [id|].
  - rewrite same_rollout.
    destruct (isInRollout2 id flagKey (rolloutPercentage rule));
      [reflexivity | now apply IH].
  - destruct (num_lt _ (rolloutPercentage rule)); [reflexivity | now apply IH].
Qed.

Lemma evaluateTargeting_two_runs (targeting : option Targeting)
    (defaultValue : JsValue) (n : nat) :
  (forall t, targeting = Some t -> same_answers (rules t)) ->
  Engine.evaluateTargeting evaluateCondition1 isInRollout1
    flagKey targeting user1 defaultValue src n
  = Engine.evaluateTargeting evaluateCondition2 isInRollout2
      flagKey targeting user2 defaultValue src n.
Proof.
  intros Hsame. destruct targeting as [t|]; [|reflexivity].
  specialize (Hsame t eq_refl).
  destruct (enabled t) eqn:Hon.
  - rewrite !evaluateTargeting_enabled by exact Hon.
    rewrite (evaluateRules_two_runs _ _ Hsame).
    unfold effectiveUserId, after_gate. rewrite same_id.
    destruct (Engine.evaluateRules _ _ (rules t) user2 flagKey src n)
      as [[result|] n']; [reflexivity|].
    now rewrite same_rollout.
  - unfold Engine.evaluateTargeting. now rewrite Hon.
Qed.
End TwoRuns.

(** ** Strings *)

Lemma str_eqb_eq (s t : JsString) : str_eqb s t = true <-> s = t.
Proof.
  revert t. induction s as [|a s IH]; intros [|b t]; simpl; split;
    try discriminate; try reflexivity.
  - intros H. apply andb_true_iff in H as [Hab Hst].
    apply Z.eqb_eq in Hab. apply IH in Hst. congruence.
  - intros [= -> ->]. rewrite Z.eqb_refl. now apply IH.
Qed.

Lemma starts_with_spec (prefix s : JsString) :
  starts_with prefix s = true <-> exists rest, s = prefix ++ rest.
Proof.
  revert s. induction prefix as [|a prefix IH]; intros s.
  - simpl. split; [intros _; now exists s | reflexivity].
  - destruct s as [|b s]; simpl.
    + split; [discriminate | intros [rest Hrest]; discriminate].
    + rewrite andb_true_iff, Z.eqb_eq, IH. split.
      * intros [-> [rest ->]]. now exists rest.
      * intros [rest [= -> ->]]. split; [reflexivity | now exists rest].
Qed.

(** [includes] finds exactly the contiguous occurrences. *)
Lemma str_includes_spec (s search : JsString) :
  str_includes s search = true
  <-> exists before rest, s = before ++ search ++ rest.
Proof.
  induction s as [|c s IH].
  - simpl. rewrite orb_false_r, starts_with_spec. split.
    + intros [rest Hrest]. now exists [], rest.
    + intros (before & rest & Hs).
      destruct before; [now exists rest | discriminate].
  - cbn [str_includes]. rewrite orb_true_iff, starts_with_spec, IH. split.
    + intros [[rest Hrest] | (before & rest & ->)].
      * now exists [], rest.
      * now exists (c :: before), rest.
    + intros (before & rest & Hs). destruct before as [|b before].
      * left. now exists rest.
      * right. injection Hs as -> ->. now exists before, rest.
Qed.

Lemma str_split_whole (sep : Z) (s : JsString) :
  forallb (fun c => negb (c =? sep)) s = true -> str_split sep s = [s].
Proof.
  induction s as [|c s IH]; [reflexivity|].
  cbn [forallb str_split]. intros H. apply andb_true_iff in H as [Hc Hs].
  apply negb_true_iff in Hc. now rewrite Hc, IH.
Qed.

Lemma str_split_at_sep (sep : Z) (s rest : JsString) :
  forallb (fun c => negb (c =? sep)) s = true ->
  str_split sep (s ++ sep :: rest) = s :: str_split sep rest.
Proof.
  induction s as [|c s IH]; intros H.
  - cbn. now rewrite Z.eqb_refl.
  - cbn [forallb] in H. apply andb_true_iff in H as [Hc Hs].
    apply negb_true_iff in Hc. cbn [app str_split]. now rewrite Hc, IH.
Qed.

(** Splitting what [join] glued gives the pieces back, for a non-empty
    list of pieces that hold no separator. *)
Lemma str_split_join (sep : Z) (pieces : list JsString) :
  pieces <> [] ->
  forallb (fun piece => forallb (fun c => negb (c =? sep)) piece) pieces = true ->
  str_split sep (str_join [sep] pieces) = pieces.
Proof.
  induction pieces as [|piece rest IH]; [contradiction|].
  intros _ H. cbn [forallb] in H. apply andb_true_iff in H as [Hpiece Hrest].
  destruct rest as [|next rest].
  - cbn [str_join]. now apply str_split_whole.
  - change (str_join [sep] (piece :: next :: rest))
      with (piece ++ sep :: str_join [sep] (next :: rest)).
    rewrite str_split_at_sep by exact Hpiece.
    now rewrite IH.
Qed.

Lemma str_trim_plain (s : JsString) : plain_piece s = true -> str_trim s = s.
Proof.
  unfold plain_piece, str_trim. intros H. apply andb_true_iff in H as [_ H].
  destruct s as [|c s]; [reflexivity|].
  apply andb_true_iff in H as [Hfirst Hlast].
  apply negb_true_iff in Hfirst, Hlast.
  cbn [trim_start]. rewrite Hfirst.
  destruct (exists_last (l := c :: s)) as (front & a & Hs); [discriminate|].
  rewrite Hs in *. rewrite last_last in Hlast.
  rewrite rev_unit. cbn [trim_start]. rewrite Hlast.
  cbn [rev]. now rewrite rev_involutive.
Qed.

Lemma plain_piece_no_comma (s : JsString) :
  plain_piece s = true -> forallb (fun c => negb (c =? 44)) s = true.
Proof. unfold plain_piece. intros H. now apply andb_true_iff in H as [H _]. Qed.

(** ** Conditions, further *)

Lemma evaluateCondition_portable `{JsBuiltins}
    (condition : TargetingCondition) (user : UserContext) :
  portable condition = true ->
  DashboardLib.evaluateCondition condition user
  = Part005.evaluateConditionWithUser condition user.
Proof.
  unfold portable, DashboardLib.evaluateCondition,
    Part005.evaluateConditionWithUser, Part005.evaluateCondition.
  destruct (operator condition); intros Hp; try reflexivity.
  destruct (condition_value condition); try discriminate.
  now destruct (strict_equal _ VUndefined).
Qed.

(** X11.  The two copies of the engine differ in one place only.  On a
    condition whose operator is not [in], or whose operand is an array,
    the two condition evaluators agree; and on a targeting whose
    conditions are all of that kind, the two [evaluateTargeting] return the
    same result and take the same draws, for every user. *)
Theorem copies_agree_on_portable_conditions `{JsBuiltins}
    (flagKey : JsString) (targeting : option Targeting) (user : UserContext)
    (defaultValue : JsValue) (src : RandomSource) (n : nat) :
  (forall condition,
      portable condition = true ->
      DashboardLib.evaluateCondition condition user
      = Part005.evaluateConditionWithUser condition user)
  /\ ((forall t rule condition,
          targeting = Some t -> In rule (rules t) ->
          In condition (conditions rule) -> portable condition = true) ->
      DashboardLib.evaluateTargeting flagKey targeting user defaultValue src n
      = Part005.evaluateTargeting flagKey targeting user defaultValue src n).
Proof.
  split; [intros c; apply evaluateCondition_portable|].
  intros Hportable. apply evaluateTargeting_two_runs.
  - apply isInRollout_agree.
  - reflexivity.
  - intros t Ht rule Hrule c Hc.
    apply evaluateCondition_portable. eapply Hportable; eauto.
Qed.

Lemma copies_agree_on_portable_conditions_witness :
  @DashboardLib.evaluateTargeting integer_builtins (js "new-dashboard")
    (Some three_misses) free_user (VBool false) (constant_source 42) 0%nat
  = @Part005.evaluateTargeting integer_builtins (js "new-dashboard")
      (Some three_misses) free_user (VBool false) (constant_source 42) 0%nat.
Proof.
  apply (@copies_agree_on_portable_conditions integer_builtins).
  intros t rule c [= <-] Hrule Hc.
  destruct Hrule as [<- | [<- | [<- | []]]]; cbn in Hc;
    try contradiction.
  destruct Hc as [<- | []]. reflexivity.
Defined.

Lemma array_includes_strings (pieces : list JsString) (x : JsValue) :
  is_string x = false ->
  array_includes (List.map (fun piece => VStr (str_trim piece)) pieces) x = false.
Proof.
  intros Hx. unfold array_includes.
  induction pieces as [|piece rest IH]; [reflexivity|].
  cbn [List.map existsb]. rewrite IH, orb_false_r.
  now destruct x.
Qed.

(** X12.  The [in] operator of part_005 does not coerce: against a
    comma-separated string (or any operand that is not an array) a user
    value that is not a string never matches, a number 5 against ["5,6"]
    included. *)
Theorem in_operator_does_not_coerce `{JsBuiltins}
    (userValue conditionValue : JsValue) :
  is_string userValue = false ->
  isArray conditionValue = false ->
  Part005.evaluateCondition userValue op_in conditionValue = false.
Proof.
  intros Hstr Harr. unfold Part005.evaluateCondition.
  destruct (strict_equal userValue VUndefined); [reflexivity|].
  destruct conditionValue; try discriminate;
    now apply array_includes_strings.
Qed.

Lemma in_operator_does_not_coerce_witness :
  @Part005.evaluateCondition integer_builtins
    (VNum (of_Z 5)) op_in (VStr (js "5,6")) = false.
Proof.
  apply (@in_operator_does_not_coerce integer_builtins); reflexivity.
Defined.

(** X13.  For the [in] operator of part_005 a non-empty array of strings
    and the string that joins them with commas are the same operand, as
    long as no string of the array holds a comma or starts or ends with
    white space: splitting and trimming give the array back. *)
Theorem in_operator_list_forms_agree `{JsBuiltins}
    (userValue : JsValue) (ref : nat) (pieces : list JsString) :
  pieces <> [] ->
  forallb plain_piece pieces = true ->
  Part005.evaluateCondition userValue op_in (VStr (str_join (js ",") pieces))
  = Part005.evaluateCondition userValue op_in (VArr ref (List.map VStr pieces)).
Proof.
  intros Hne Hplain. unfold Part005.evaluateCondition.
  destruct (strict_equal userValue VUndefined); [reflexivity|].
  cbn [ToString]. change (js ",") with [44].
  rewrite str_split_join; [|exact Hne|].
  - f_equal. induction pieces as [|piece rest IH]; [reflexivity|].
    cbn [forallb] in Hplain. apply andb_true_iff in Hplain as [Hp Hrest].
    cbn [List.map]. rewrite (str_trim_plain piece Hp). f_equal.
    destruct rest; [reflexivity | now apply IH].
  - clear Hne. induction pieces as [|piece rest IH]; [reflexivity|].
    cbn [forallb] in *. apply andb_true_iff in Hplain as [Hp Hrest].
    now rewrite (plain_piece_no_comma piece Hp), IH.
Qed.

Lemma in_operator_list_forms_agree_witness :
  @Part005.evaluateCondition integer_builtins
    (VStr (js "US")) op_in (VStr (js "TR,US,UK"))
  = @Part005.evaluateCondition integer_builtins
      (VStr (js "US")) op_in
      (VArr 0 [VStr (js "TR"); VStr (js "US"); VStr (js "UK")]).
Proof.
  apply (@in_operator_list_forms_agree integer_builtins (VStr (js "US")) 0%nat
           [js "TR"; js "US"; js "UK"]).
  - discriminate.
  - reflexivity.
Defined.

Lemma comparisons_with_nan (a b : number) :
  a = NaN \/ b = NaN ->
  num_gt a b = false /\ num_lt a b = false
  /\ num_ge a b = false /\ num_le a b = false.
Proof.
  unfold num_gt, num_ge. intros [-> | ->]; [destruct b | destruct a]; repeat split.
Qed.

Lemma comparisons_without_nan (a b : number) :
  a <> NaN -> b <> NaN ->
  num_ge a b = negb (num_lt a b) /\ num_le a b = negb (num_gt a b).
Proof.
  unfold num_gt, num_ge. intros Ha Hb.
  destruct a, b; try contradiction; simpl; split;
    try reflexivity; now rewrite negb_involutive.
Qed.

Lemma defined_is_not_undefined (v : JsValue) :
  v <> VUndefined -> strict_equal v VUndefined = false.
Proof. destruct v; try reflexivity. contradiction. Qed.

(** X14.  The numeric operators never raise and never match on a value
    that is not a number: when [Number(userValue)] or
    [Number(conditionValue)] is NaN, [gt], [lt], [gte] and [lte] are all
    false, in both copies.  When both are numbers (and the user has the
    attribute), [gte] is the negation of [lt] and [lte] that of [gt]. *)
Theorem numeric_operators_and_nan `{JsBuiltins}
    (user : UserContext) (name : JsString) (conditionValue : JsValue) :
  let userValue := attribute_of user name in
  let part op := Part005.evaluateCondition userValue op conditionValue in
  let dash op :=
    DashboardLib.evaluateCondition
      {| attribute := name; operator := op; condition_value := conditionValue |}
      user in
  (ToNumber userValue = NaN \/ ToNumber conditionValue = NaN ->
   (part op_gt = false /\ part op_lt = false
    /\ part op_gte = false /\ part op_lte = false)
   /\ (dash op_gt = false /\ dash op_lt = false
       /\ dash op_gte = false /\ dash op_lte = false))
  /\ (userValue <> VUndefined ->
      ToNumber userValue <> NaN -> ToNumber conditionValue <> NaN ->
      (part op_gte = negb (part op_lt) /\ part op_lte = negb (part op_gt))
      /\ (dash op_gte = negb (dash op_lt) /\ dash op_lte = negb (dash op_gt))).
Proof.
  intros userValue part dash. subst part dash.
  unfold Part005.evaluateCondition, DashboardLib.evaluateCondition.
  cbn [attribute operator condition_value]. fold userValue. split.
  - intros Hnan.
    destruct (comparisons_with_nan _ _ Hnan) as (Hgt & Hlt & Hge & Hle).
    rewrite Hgt, Hlt, Hge, Hle.
    destruct (strict_equal userValue VUndefined); repeat split.
  - intros Hdef Hu Hc.
    destruct (comparisons_without_nan _ _ Hu Hc) as (Hge & Hle).
    rewrite (defined_is_not_undefined _ Hdef). auto.
Qed.

Lemma numeric_operators_and_nan_witness :
  let user := {| user_id := None;
                 attributes := Some {[ js "age" := VNum (of_Z 30) ]} |} in
  (@Part005.evaluateCondition integer_builtins
     (attribute_of user (js "age")) op_gte VUndefined = false
   /\ @DashboardLib.evaluateCondition integer_builtins
        {| attribute := js "age"; operator := op_lte; condition_value := VUndefined |}
        user = false)
  /\ @Part005.evaluateCondition integer_builtins
       (attribute_of user (js "age")) op_gte (VNum (of_Z 25))
     = negb (@Part005.evaluateCondition integer_builtins
               (attribute_of user (js "age")) op_lt (VNum (of_Z 25))).
Proof.
  intros user. split.
  - pose proof (proj1 (@numeric_operators_and_nan integer_builtins user (js "age")
                         VUndefined) (or_intror eq_refl))
      as [(_ & _ & Hgte & _) (_ & _ & _ & Hlte)].
    split; [exact Hgte | exact Hlte].
  - apply (proj2 (@numeric_operators_and_nan integer_builtins user (js "age")
                    (VNum (of_Z 25)))); vm_compute; discriminate.
Defined.

(** X15.  The [contains] operator compares the string forms: for a user
    who has the attribute it holds exactly when [String(conditionValue)]
    occurs as a contiguous run of [String(userValue)].  So an empty
    condition string matches every user who has the attribute.  (part_005;
    the dashboard copy agrees by X11.) *)
Theorem contains_operator_is_substring `{JsBuiltins}
    (userValue conditionValue : JsValue) :
  userValue <> VUndefined ->
  (Part005.evaluateCondition userValue op_contains conditionValue = true
   <-> exists before rest,
         ToString userValue = before ++ ToString conditionValue ++ rest)
  /\ Part005.evaluateCondition userValue op_contains (VStr []) = true.
Proof.
  intros Hdef. unfold Part005.evaluateCondition.
  rewrite (defined_is_not_undefined _ Hdef). split.
  - apply str_includes_spec.
  - apply str_includes_spec. exists [], (ToString userValue). reflexivity.
Qed.

Lemma contains_operator_is_substring_witness :
  @Part005.evaluateCondition integer_builtins
    (VStr (js "ada@example.com")) op_contains (VStr (js "@example.")) = true
  /\ @Part005.evaluateCondition integer_builtins
       (VBool true) op_contains (VStr []) = true.
Proof.
  split.
  - apply (proj1 (@contains_operator_is_substring integer_builtins
                    (VStr (js "ada@example.com")) (VStr (js "@example."))
                    ltac:(discriminate))).
    exists (js "ada"), (js "com"). reflexivity.
  - apply (proj2 (@contains_operator_is_substring integer_builtins
                    (VBool true) (VStr (js "@example."))
                    ltac:(discriminate))).
Defined.




(** ** The combined key and odd percentages *)

(** X17.  The key that is hashed is the plain concatenation [flagKey +
    ":" + userId], so the colon does not keep the two fields apart: moving
    a colon-delimited piece from the end of the flag key to the front of
    the user id gives the same key, hence the same rollout decision at
    every percentage.  Both copies. *)
Theorem rollout_key_is_concatenation
    (flagKey piece userId : JsString) (percentage : number) :
  DashboardLib.isInRollout userId (flagKey ++ js ":" ++ piece) percentage
  = DashboardLib.isInRollout (piece ++ js ":" ++ userId) flagKey percentage
  /\ Part005.isInRollout userId (flagKey ++ js ":" ++ piece) percentage
     = Part005.isInRollout (piece ++ js ":" ++ userId) flagKey percentage.
Proof.
  rewrite !isInRollout_agree, !Part005_isInRollout_bucket.
  assert (Hkey : (flagKey ++ js ":" ++ piece) ++ js ":" ++ userId
                 = flagKey ++ js ":" ++ piece ++ js ":" ++ userId)
    by now rewrite <- !app_assoc.
  now rewrite Hkey.
Qed.

(** X18.  A rollout percentage that is NaN lets nobody in: [isInRollout]
    is false for every user and flag, and the gate of a rule is shut for
    users with and without an id, whatever the random bucket.  Both
    copies. *)
Theorem nan_percentage_excludes_everyone
    (userId flagKey : JsString) (user : UserContext)
    (src : RandomSource) (n : nat) :
  DashboardLib.isInRollout userId flagKey NaN = false
  /\ Part005.isInRollout userId flagKey NaN = false
  /\ rollout_gate DashboardLib.isInRollout user flagKey src n NaN = false
  /\ rollout_gate Part005.isInRollout user flagKey src n NaN = false.
Proof.
  assert (Hnan : forall u f, Part005.isInRollout u f NaN = false)
    by (intros u f; now rewrite Part005_isInRollout_bucket).
  repeat split; try rewrite isInRollout_agree; try apply Hnan.
  - unfold rollout_gate. destruct (truthy_id user);
      [rewrite isInRollout_agree; apply Hnan | reflexivity].
  - unfold rollout_gate. destruct (truthy_id user); [apply Hnan | reflexivity].
Qed.
